(** * SmartLearn AI: the shared type registry (shared/types/python_types.py)

    The module declares seven string enumerations and forty-two pydantic
    [BaseModel] classes, and nothing else.  What an instantiation does
    is decided by the declarations (annotations, [Field(ge=, le=)]
    bounds, defaults) and by the validation [BaseModel] runs on
    construction, in its default configuration:
    - every attribute is validated, and the violations of all of them
      are reported together;
    - an argument of the annotated type is stored as it is, after the
      check of its bounds; an argument of another type goes through the
      library's conversions first;
    - an absent argument takes the default of the attribute, which is
      not validated, and is a violation when there is none;
    - an argument that names no attribute is ignored.

    The layers of the development:
    - [Datetime]: datetime objects and their ISO-8601 text;
    - [Py]: the Python values a constructor receives and stores;
    - [Pydantic]: declarations as data and the validation they induce;
    - [Types]: the declarations of python_types.py, in source order;
    - [Conversions]: conversions of pydantic's default mode;
    - [Wire]: the serialized form of a stored value;
    - [Shape], [Scenario], [Induction]: the vocabulary of the
      properties, the arguments of the scenarios, induction principles.
    Facts about the text of datetimes, about validation for any
    declaration and about constructor calls come next, and the
    properties of the registry last. *)

From Stdlib Require Import ZArith List String Ascii Bool Lia Eqdep_dec.
From Stdlib Require Import Floats.SpecFloat.
Import ListNotations.

Set Warnings "-register-all".

Local Open Scope string_scope.
Local Open Scope Z_scope.

(** ** Option sequencing *)

Notation "'let*' p ':=' a 'in' b" :=
  (match a with Some p => b | None => None end)
  (at level 10, p pattern, a at level 100, b at level 200).

(* ================================================================= *)
(** ** datetime objects *)

Module Datetime.

(** The attributes of [datetime.datetime]; [utcoffset] is what the
    [tzinfo] of an aware object gives, a [timedelta] east of UTC counted
    in microseconds, and [None] for a naive object. *)
Record fields := Fields {
  year : Z; month : Z; day : Z;
  hour : Z; minute : Z; second : Z; microsecond : Z;
  utcoffset : option Z
}.

Definition between (lo hi x : Z) : bool := (lo <=? x) && (x <=? hi).

Definition is_leap (y : Z) : bool :=
  (y mod 4 =? 0) && (negb (y mod 100 =? 0) || (y mod 400 =? 0)).

Definition days_in_month (y m : Z) : Z :=
  if m =? 2 then (if is_leap y then 29 else 28)
  else if (m =? 4) || (m =? 6) || (m =? 9) || (m =? 11) then 30
  else 31.

(** One minute and one day, in microseconds. *)
Definition minute_us : Z := 60000000.
Definition day_us : Z := 86400000000.

(** The ranges the [datetime] constructor enforces (it raises
    [ValueError] outside them); the offset of a [tzinfo] lies strictly
    between minus one day and one day. *)
Definition valid (f : fields) : bool :=
  between 1 9999 (year f) && between 1 12 (month f)
  && between 1 (days_in_month (year f) (month f)) (day f)
  && between 0 23 (hour f) && between 0 59 (minute f)
  && between 0 59 (second f) && between 0 999999 (microsecond f)
  && match utcoffset f with
     | None => true
     | Some o => between (1 - day_us) (day_us - 1) o
     end.

(** A datetime object: attributes within the constructor's ranges. *)
Record t := Make { attrs : fields; attrs_valid : valid attrs = true }.

(** The object is naive, or its offset is a whole number of minutes
    (every zone in use today; [timezone(timedelta(minutes=19,
    seconds=32))] is not). *)
Definition whole_minutes (d : t) : bool :=
  match utcoffset (attrs d) with
  | None => true
  | Some o => o mod minute_us =? 0
  end.

Definition check (f : fields) : option t :=
  match bool_dec (valid f) true with
  | left H => Some (Make f H)
  | right _ => None
  end.

(** *** Decimal digits *)

Definition digit (d : Z) : ascii := ascii_of_N (48 + Z.to_N d).

Definition digit_val (c : ascii) : option Z :=
  let n := Z.of_N (N_of_ascii c) in
  if between 48 57 n then Some (n - 48) else None.

(** [pad k n]: the last [k] decimal digits of [n], zero padded. *)
Fixpoint pad (k : nat) (n : Z) : string :=
  match k with
  | O => ""
  | S k' => String (digit ((n / 10 ^ Z.of_nat k') mod 10)) (pad k' n)
  end.

(** [read_digits k acc s]: exactly [k] digits from the front of [s]. *)
Fixpoint read_digits (k : nat) (acc : Z) (s : string) : option (Z * string) :=
  match k with
  | O => Some (acc, s)
  | S k' =>
      match s with
      | String c s' =>
          let* d := digit_val c in read_digits k' (10 * acc + d) s'
      | EmptyString => None
      end
  end.

Definition expect (c : ascii) (s : string) : option string :=
  match s with
  | String c' s' => if Ascii.eqb c c' then Some s' else None
  | EmptyString => None
  end.

(** *** ISO-8601 text

    [YYYY-MM-DDTHH:MM:SS], then [.ffffff] when the microseconds are not
    zero, then [Z] for UTC, [+HH:MM] or [-HH:MM] for another offset and
    nothing for a naive object.  An ISO-8601 offset is made of hours
    and minutes: what the offset of the object holds below the minute
    is not written. *)

Definition offset_text (tz : option Z) : string :=
  match tz with
  | None => ""
  | Some o =>
      if o =? 0 then "Z"
      else
        let m := Z.abs o / minute_us in
        String (if o <? 0 then "-"%char else "+"%char)
               (pad 2 (m / 60) ++ String ":" (pad 2 (m mod 60)))
  end.

Definition fraction_text (us : Z) (rest : string) : string :=
  if us =? 0 then rest else String "." (pad 6 us ++ rest).

Definition format_fields (f : fields) : string :=
  pad 4 (year f) ++ String "-" (pad 2 (month f) ++ String "-" (pad 2 (day f)
  ++ String "T" (pad 2 (hour f) ++ String ":" (pad 2 (minute f)
  ++ String ":" (pad 2 (second f)
  ++ fraction_text (microsecond f) (offset_text (utcoffset f))))))).

Definition isoformat (d : t) : string := format_fields (attrs d).

Definition read_fraction (s : string) : option (Z * string) :=
  match s with
  | String c s' => if Ascii.eqb c "." then read_digits 6 0 s' else Some (0, s)
  | EmptyString => Some (0, s)
  end.

(** An offset [HH:MM] of at most 23 hours and 59 minutes. *)
Definition read_hhmm (sign : Z) (s : string) : option (option Z) :=
  let* (h, s) := read_digits 2 0 s in
  let* s := expect ":" s in
  let* (m, s) := read_digits 2 0 s in
  match s with
  | EmptyString =>
      if (h <=? 23) && (m <=? 59)
      then Some (Some (sign * (60 * h + m) * minute_us))
      else None
  | String _ _ => None
  end.

Definition read_offset (s : string) : option (option Z) :=
  match s with
  | EmptyString => Some None
  | String c s' =>
      if Ascii.eqb c "Z" then
        match s' with EmptyString => Some (Some 0) | String _ _ => None end
      else if Ascii.eqb c "+" then read_hhmm 1 s'
      else if Ascii.eqb c "-" then read_hhmm (-1) s'
      else None
  end.

Definition parse_fields (s : string) : option fields :=
  let* (y, s) := read_digits 4 0 s in
  let* s := expect "-" s in
  let* (mo, s) := read_digits 2 0 s in
  let* s := expect "-" s in
  let* (d, s) := read_digits 2 0 s in
  let* s := expect "T" s in
  let* (h, s) := read_digits 2 0 s in
  let* s := expect ":" s in
  let* (mi, s) := read_digits 2 0 s in
  let* s := expect ":" s in
  let* (se, s) := read_digits 2 0 s in
  let* (us, s) := read_fraction s in
  let* tz := read_offset s in
  Some (Fields y mo d h mi se us tz).

(** The reading of the text written by [isoformat]; a string in this
    form is accepted by every pydantic datetime parser. *)
Definition fromisoformat (s : string) : option t :=
  let* f := parse_fields s in check f.

End Datetime.

(* ================================================================= *)
(** ** Python values *)

Module Py.

(** A Python [float] is an IEEE-754 binary64 number: a [spec_float] in
    the canonical form of precision 53.  Comparisons are [SFleb] and
    [SFltb], which are false as soon as one side is a NaN. *)
Definition float := spec_float.

(** The values a constructor of the registry receives and stores.  A
    [dict] has string keys and keeps insertion order; a member of a
    [(str, Enum)] class is a [str] equal to its value and is the
    string here; an instance of a [BaseModel] class is the mapping of
    its fields in declaration order. *)
Inductive value :=
| VNone
| VBool (b : bool)
| VInt (z : Z)
| VFloat (f : float)
| VStr (s : string)
| VDatetime (d : Datetime.t)
| VList (xs : list value)
| VDict (kvs : list (string * value)).

(** [d.get(k)]: the value stored under [k]. *)
Fixpoint get (k : string) (kvs : list (string * value)) : option value :=
  match kvs with
  | [] => None
  | (k', v) :: rest => if String.eqb k k' then Some v else get k rest
  end.

(** Literals of the source and of the scenarios, as binary64 values. *)
Definition f0_0 : float := S754_zero false.
Definition f1_0 : float := S754_finite false 4503599627370496 (-52).
Definition f0_7 : float := S754_finite false 6305039478318694 (-53).
Definition f0_85 : float := S754_finite false 7656119366529843 (-53).
Definition f1_5 : float := S754_finite false 6755399441055744 (-52).
Definition f3_0 : float := S754_finite false 6755399441055744 (-51).
Definition f6_0 : float := S754_finite false 6755399441055744 (-50).
(** -0.0001 and 1.0001 *)
Definition fm0_0001 : float := S754_finite true 7378697629483821 (-66).
Definition f1_0001 : float := S754_finite false 4504049987333233 (-52).

(** [m * 2^e] is the binary64 number nearest to the decimal [p / q]:
    it has 53 significant bits and lies within half a unit in the last
    place of [p / q]. *)
Definition nearest (p q : Z) (f : float) : bool :=
  match f with
  | S754_finite s m e =>
      let n := if s then - Z.pos m else Z.pos m in
      (2 ^ 52 <=? Z.pos m) && (Z.pos m <? 2 ^ 53) && (e <? 0)
      && (2 * Z.abs (n * q - p * 2 ^ (- e)) <=? q)
  | S754_zero _ => p =? 0
  | _ => false
  end.

End Py.

Import Py.

(* ================================================================= *)
(** ** Declarations as data, and the validation they induce *)

Module Pydantic.

(** A [(str, Enum)] class: its name and its members, name and value. *)
Record enum := Enum { ename : string; members : list (string * string) }.

Definition values (e : enum) : list string := map snd (members e).

(** [Field(ge=, le=)]: inclusive bounds, each optional. *)
Record bounds (A : Type) := Field { ge : option A; le : option A }.
Arguments Field {A} ge le.
Arguments ge {A} b.
Arguments le {A} b.

Definition unbounded {A : Type} : bounds A := Field None None.

(** One annotated attribute of a class: [name: type] is required,
    [name: type = default] falls back on the default. *)
Record attribute (T : Type) := Attribute {
  fname : string;
  ftyp : T;
  fdefault : option value
}.
Arguments Attribute {T} fname ftyp fdefault.
Arguments fname {T} a.
Arguments ftyp {T} a.
Arguments fdefault {T} a.

(** The annotations the module uses.  [TInt] and [TFloat] carry the
    bounds of the [Field] call of their attribute ([unbounded] without
    one); [TDict t] is [Dict[str, t]]. *)
Inductive ftype :=
| TStr
| TInt (b : bounds Z)
| TFloat (b : bounds float)
| TBool
| TDatetime
| TAny
| TEnum (e : enum)
| TList (t : ftype)
| TDict (t : ftype)
| TOptional (t : ftype)
| BaseModel (cls : string) (fs : list (attribute ftype)).

Definition field := attribute ftype.

Definition required (name : string) (t : ftype) : field :=
  Attribute name t None.

Definition defaulted (name : string) (t : ftype) (d : value) : field :=
  Attribute name t (Some d).

(** [Cls()]: the instance built without arguments, for a class whose
    attributes all have a default ([construct_no_args] below). *)
Definition no_args (t : ftype) : value :=
  match t with
  | BaseModel _ fs =>
      VDict (map (fun f => (fname f,
                            match fdefault f with
                            | Some d => d
                            | None => VNone
                            end)) fs)
  | _ => VNone
  end.

(** *** Validation failures *)

Inductive loc_item := Name (s : string) | Index (i : nat).

Inductive constraint :=
| Missing
| IsStr | IsInt | IsFloat | IsBool | IsDatetime | IsList | IsDict
| IsModel (cls : string)
| IsMember (e : enum)
| GreaterEqual (b : value)
| LessEqual (b : value).

(** One violation: the path of the offending value, the value received
    and the constraint it breaks. *)
Record violation := Violation {
  loc : list loc_item;
  input : value;
  broken : constraint
}.

Inductive result (A : Type) :=
| Valid (a : A)
| Invalid (es : list violation).
Arguments Valid {A} a.
Arguments Invalid {A} es.

Definition fail {A : Type} (x : value) (c : constraint) : result A :=
  Invalid [Violation [] x c].

Definition under (i : loc_item) (e : violation) : violation :=
  Violation (i :: loc e) (input e) (broken e).

(** The result of a nested value, its violations located under [i]. *)
Definition at_loc {A : Type} (i : loc_item) (r : result A) : result A :=
  match r with
  | Valid a => Valid a
  | Invalid es => Invalid (map (under i) es)
  end.

Definition rmap {A B : Type} (f : A -> B) (r : result A) : result B :=
  match r with
  | Valid a => Valid (f a)
  | Invalid es => Invalid es
  end.

(** Both results are computed and the violations of both are kept:
    validation does not stop at the first failure. *)
Definition both {A B C : Type} (f : A -> B -> C)
           (r1 : result A) (r2 : result B) : result C :=
  match r1, r2 with
  | Valid a, Valid b => Valid (f a b)
  | Valid _, Invalid es => Invalid es
  | Invalid es, Valid _ => Invalid es
  | Invalid es1, Invalid es2 => Invalid (es1 ++ es2)
  end.

(** *** Lax conversions

    In pydantic's default mode a value that is not of the annotated
    type may still be converted ("3" to 3, 1 to 1.0, ...).  Which
    values are converted is the library's business and differs between
    its versions; [lax] is that table, consulted only for an input
    that is not already of the annotated type. *)
Record lax := Lax {
  lax_str : value -> option string;
  lax_int : value -> option Z;
  lax_float : value -> option float;
  lax_bool : value -> option bool;
  lax_datetime : value -> option Datetime.t
}.

(** The bounds of a [Field] call on a converted number: the upper
    bound is checked first, then the lower one, and the first bound that
    fails is the violation reported (the order only shows on a NaN,
    which fails both). *)
Definition in_bounds {A : Type} (leb : A -> A -> bool) (inj : A -> value)
           (b : bounds A) (a : A) (x : value) : result value :=
  match le b with
  | Some hi =>
      if leb a hi then
        match ge b with
        | Some lo => if leb lo a then Valid (inj a)
                     else fail x (GreaterEqual (inj lo))
        | None => Valid (inj a)
        end
      else fail x (LessEqual (inj hi))
  | None =>
      match ge b with
      | Some lo => if leb lo a then Valid (inj a)
                   else fail x (GreaterEqual (inj lo))
      | None => Valid (inj a)
      end
  end.

Definition mem (s : string) (l : list string) : bool :=
  existsb (String.eqb s) l.

Section Validation.

Variable L : lax.

Definition as_str (x : value) : option string :=
  match x with VStr s => Some s | _ => lax_str L x end.

Definition as_int (x : value) : option Z :=
  match x with VInt z => Some z | _ => lax_int L x end.

Definition as_float (x : value) : option float :=
  match x with VFloat f => Some f | _ => lax_float L x end.

Definition as_bool (x : value) : option bool :=
  match x with VBool b => Some b | _ => lax_bool L x end.

Definition as_datetime (x : value) : option Datetime.t :=
  match x with
  | VDatetime d => Some d
  | VStr s =>
      match Datetime.fromisoformat s with
      | Some d => Some d
      | None => lax_datetime L x
      end
  | _ => lax_datetime L x
  end.

Definition scalar {A : Type} (inj : A -> value) (c : constraint)
           (o : option A) (x : value) : result value :=
  match o with
  | Some a => Valid (inj a)
  | None => fail x c
  end.

(** The items of a list, each located under its index. *)
Fixpoint items (v : value -> result value) (i : nat) (xs : list value)
  : result (list value) :=
  match xs with
  | [] => Valid []
  | x :: rest => both cons (at_loc (Index i) (v x)) (items v (S i) rest)
  end.

(** The entries of a dict, each value located under its key. *)
Fixpoint entries (v : value -> result value) (kvs : list (string * value))
  : result (list (string * value)) :=
  match kvs with
  | [] => Valid []
  | (k, x) :: rest =>
      both cons (rmap (pair k) (at_loc (Name k) (v x))) (entries v rest)
  end.

(** One attribute of a class, given the keyword arguments: the
    argument of that name is validated, a default is taken as it is
    when the argument is absent, and a required attribute without
    argument is a violation. *)
Definition attribute_value (v : value -> result value) (name : string)
           (d : option value) (kwargs : list (string * value))
  : result (string * value) :=
  match get name kwargs with
  | Some x => rmap (pair name) (at_loc (Name name) (v x))
  | None =>
      match d with
      | Some dv => Valid (name, dv)
      | None => Invalid [Violation [Name name] (VDict kwargs) Missing]
      end
  end.

(** [validate t x]: the value stored for an input [x] under the
    annotation [t], or every violation found in [x]. *)
Fixpoint validate (t : ftype) (x : value) {struct t} : result value :=
  match t with
  | TStr => scalar VStr IsStr (as_str x) x
  | TInt b =>
      match as_int x with
      | Some z => in_bounds Z.leb VInt b z x
      | None => fail x IsInt
      end
  | TFloat b =>
      match as_float x with
      | Some f => in_bounds SFleb VFloat b f x
      | None => fail x IsFloat
      end
  | TBool => scalar VBool IsBool (as_bool x) x
  | TDatetime => scalar VDatetime IsDatetime (as_datetime x) x
  | TAny => Valid x
  | TEnum e =>
      match x with
      | VStr s => if mem s (values e) then Valid x else fail x (IsMember e)
      | _ => fail x (IsMember e)
      end
  | TList t' =>
      match x with
      | VList xs => rmap VList (items (validate t') 0 xs)
      | _ => fail x IsList
      end
  | TDict t' =>
      match x with
      | VDict kvs => rmap VDict (entries (validate t') kvs)
      | _ => fail x IsDict
      end
  | TOptional t' =>
      match x with
      | VNone => Valid VNone
      | _ => validate t' x
      end
  | BaseModel cls fs =>
      match x with
      | VDict kwargs =>
          rmap VDict
            ((fix attributes (fs : list field)
               : result (list (string * value)) :=
                match fs with
                | [] => Valid []
                | f :: rest =>
                    both cons
                      (attribute_value (validate (ftyp f)) (fname f)
                                       (fdefault f) kwargs)
                      (attributes rest)
                end) fs)
      | _ => fail x (IsModel cls)
      end
  end.

(** A constructor call with keyword arguments [kwargs]. *)
Definition construct (t : ftype) (kwargs : list (string * value))
  : result value :=
  validate t (VDict kwargs).

End Validation.

End Pydantic.

Import Pydantic.

(* ================================================================= *)
(** ** The declarations of python_types.py *)

Module Types.

Definition DifficultyLevel : enum :=
  Enum "DifficultyLevel"
    [("BEGINNER", "beginner"); ("INTERMEDIATE", "intermediate");
     ("ADVANCED", "advanced")].

Definition ExplanationDepth : enum :=
  Enum "ExplanationDepth"
    [("BASIC", "basic"); ("DETAILED", "detailed");
     ("COMPREHENSIVE", "comprehensive")].

Definition ExplanationStyle : enum :=
  Enum "ExplanationStyle"
    [("DETAILED", "detailed"); ("CONCISE", "concise");
     ("EXAMPLE_HEAVY", "example-heavy")].

Definition InteractionType : enum :=
  Enum "InteractionType"
    [("CONCEPT_EXPLANATION", "concept_explanation");
     ("CODE_ANALYSIS", "code_analysis");
     ("DEBUGGING_HELP", "debugging_help")].

Definition DocumentType : enum :=
  Enum "DocumentType"
    [("TUTORIAL", "tutorial"); ("DOCUMENTATION", "documentation");
     ("EXAMPLE", "example"); ("REFERENCE", "reference")].

Definition IssueType : enum :=
  Enum "IssueType"
    [("ERROR", "error"); ("WARNING", "warning");
     ("SUGGESTION", "suggestion")].

Definition IssueSeverity : enum :=
  Enum "IssueSeverity"
    [("LOW", "low"); ("MEDIUM", "medium"); ("HIGH", "high")].

(** [Field(ge=0.0, le=1.0)] and [Field(ge=1, le=5)] *)
Definition unit_interval : bounds float := Field (Some f0_0) (Some f1_0).
Definition one_to_five : bounds Z := Field (Some 1) (Some 5).

Definition NotificationSettings : ftype :=
  BaseModel "NotificationSettings"
    [defaulted "email_notifications" TBool (VBool true);
     defaulted "push_notifications" TBool (VBool true);
     defaulted "learning_reminders" TBool (VBool true);
     defaulted "progress_updates" TBool (VBool true)].

Definition UserPreferences : ftype :=
  BaseModel "UserPreferences"
    [defaulted "explanation_style" (TEnum ExplanationStyle) (VStr "detailed");
     defaulted "preferred_languages" (TList TStr) (VList []);
     defaulted "learning_goals" (TList TStr) (VList []);
     defaulted "notification_settings" NotificationSettings
               (no_args NotificationSettings)].

Definition SkillLevel : ftype :=
  BaseModel "SkillLevel"
    [required "topic" TStr;
     required "level" (TEnum DifficultyLevel);
     required "confidence" (TFloat unit_interval);
     required "last_assessed" TDatetime].

(** [domain_expertise] carries the comment
    "domain -> expertise score (0-1)" and no [Field] bounds. *)
Definition ExpertiseLevel : ftype :=
  BaseModel "ExpertiseLevel"
    [required "overall_level" (TEnum DifficultyLevel);
     defaulted "domain_expertise" (TDict (TFloat unbounded)) (VDict [])].

Definition UserFeedback : ftype :=
  BaseModel "UserFeedback"
    [required "rating" (TInt one_to_five);
     required "helpful" TBool;
     required "clarity_rating" (TInt one_to_five);
     required "accuracy_rating" (TInt one_to_five);
     defaulted "comments" (TOptional TStr) VNone].

(** [processing_time] is in seconds. *)
Definition LearningInteraction : ftype :=
  BaseModel "LearningInteraction"
    [required "id" TStr;
     required "user_id" TStr;
     required "type" (TEnum InteractionType);
     required "query" TStr;
     required "response" TStr;
     defaulted "context_used" (TList TStr) (VList []);
     defaulted "feedback" (TOptional UserFeedback) VNone;
     required "timestamp" TDatetime;
     required "processing_time" (TFloat unbounded)].

Definition LearningContext : ftype :=
  BaseModel "LearningContext"
    [defaulted "skill_levels" (TDict SkillLevel) (VDict []);
     defaulted "learning_history" (TList LearningInteraction) (VList []);
     defaulted "current_focus_areas" (TList TStr) (VList []);
     defaulted "estimated_expertise" (TOptional ExpertiseLevel) VNone].

Definition User : ftype :=
  BaseModel "User"
    [required "id" TStr;
     required "email" TStr;
     required "username" TStr;
     required "created_at" TDatetime;
     required "updated_at" TDatetime;
     defaulted "preferences" UserPreferences (no_args UserPreferences);
     defaulted "learning_context" LearningContext (no_args LearningContext)].

(** The class [Example] of the source. *)
Definition Example_ : ftype :=
  BaseModel "Example"
    [required "title" TStr;
     required "description" TStr;
     defaulted "code_snippet" (TOptional TStr) VNone;
     defaulted "language" (TOptional TStr) VNone;
     required "use_case" TStr].

Definition Analogy : ftype :=
  BaseModel "Analogy"
    [required "concept" TStr;
     required "analogy" TStr;
     required "explanation" TStr].

Definition StepByStep : ftype :=
  BaseModel "StepByStep"
    [required "step_number" (TInt unbounded);
     required "title" TStr;
     required "description" TStr;
     defaulted "code_example" (TOptional TStr) VNone].

Definition ConceptExplanation : ftype :=
  BaseModel "ConceptExplanation"
    [required "id" TStr;
     required "concept" TStr;
     required "content" TStr;
     required "difficulty_level" (TEnum DifficultyLevel);
     defaulted "examples" (TList Example_) (VList []);
     defaulted "analogies" (TList Analogy) (VList []);
     defaulted "step_by_step" (TList StepByStep) (VList []);
     defaulted "related_concepts" (TList TStr) (VList []);
     defaulted "sources" (TList TStr) (VList [])].

Definition LineExplanation : ftype :=
  BaseModel "LineExplanation"
    [required "line_number" (TInt unbounded);
     required "code" TStr;
     required "explanation" TStr;
     defaulted "concepts" (TList TStr) (VList [])].

Definition Issue : ftype :=
  BaseModel "Issue"
    [required "type" (TEnum IssueType);
     defaulted "line_number" (TOptional (TInt unbounded)) VNone;
     required "description" TStr;
     required "solution" TStr;
     required "severity" (TEnum IssueSeverity)].

Definition CodeExplanation : ftype :=
  BaseModel "CodeExplanation"
    [required "id" TStr;
     required "code_snippet" TStr;
     required "language" TStr;
     defaulted "line_explanations" (TList LineExplanation) (VList []);
     required "overall_summary" TStr;
     defaulted "best_practices" (TList TStr) (VList []);
     defaulted "potential_issues" (TList Issue) (VList []);
     defaulted "optimization_suggestions" (TList TStr) (VList [])].

Definition Fix : ftype :=
  BaseModel "Fix"
    [required "description" TStr;
     defaulted "code_change" (TOptional TStr) VNone;
     required "explanation" TStr].

Definition DebuggingSuggestion : ftype :=
  BaseModel "DebuggingSuggestion"
    [required "issue_type" TStr;
     required "description" TStr;
     defaulted "suggested_fixes" (TList Fix) (VList []);
     defaulted "debugging_steps" (TList TStr) (VList []);
     defaulted "related_resources" (TList TStr) (VList [])].

Definition DocumentMetadata : ftype :=
  BaseModel "DocumentMetadata"
    [required "author" TStr;
     required "created_date" TDatetime;
     required "last_updated" TDatetime;
     required "version" TStr;
     defaulted "language" (TOptional TStr) VNone;
     defaulted "framework" (TOptional TStr) VNone].

Definition KnowledgeDocument : ftype :=
  BaseModel "KnowledgeDocument"
    [required "id" TStr;
     required "title" TStr;
     required "content" TStr;
     required "document_type" (TEnum DocumentType);
     defaulted "topics" (TList TStr) (VList []);
     required "difficulty_level" (TEnum DifficultyLevel);
     required "source" TStr;
     defaulted "embedding_vector" (TList (TFloat unbounded)) (VList []);
     required "metadata" DocumentMetadata].

Definition UserRegistration : ftype :=
  BaseModel "UserRegistration"
    [required "email" TStr;
     required "username" TStr;
     required "password" TStr;
     defaulted "preferences" (TOptional UserPreferences) VNone].

Definition LoginCredentials : ftype :=
  BaseModel "LoginCredentials"
    [required "email" TStr;
     required "password" TStr].

(** [role] carries the comment "'user' or 'assistant'". *)
Definition ConversationMessage : ftype :=
  BaseModel "ConversationMessage"
    [required "role" TStr;
     required "content" TStr;
     required "timestamp" TDatetime;
     defaulted "metadata" (TOptional (TDict TAny)) VNone].

Definition SessionContext : ftype :=
  BaseModel "SessionContext"
    [defaulted "current_topic" (TOptional TStr) VNone;
     defaulted "conversation_history" (TList ConversationMessage) (VList []);
     defaulted "active_learning_goals" (TList TStr) (VList [])].

Definition UserContext : ftype :=
  BaseModel "UserContext"
    [required "user_id" TStr;
     required "skill_level" SkillLevel;
     required "preferences" UserPreferences;
     defaulted "session_context" SessionContext (no_args SessionContext)].

Definition SearchFilters : ftype :=
  BaseModel "SearchFilters"
    [defaulted "topics" (TOptional (TList TStr)) VNone;
     defaulted "difficulty_level" (TOptional (TEnum DifficultyLevel)) VNone;
     defaulted "document_type" (TOptional (TList (TEnum DocumentType))) VNone;
     defaulted "language" (TOptional TStr) VNone;
     defaulted "date_range" (TOptional (TDict TDatetime)) VNone].

Definition SearchResult : ftype :=
  BaseModel "SearchResult"
    [required "document_id" TStr;
     required "title" TStr;
     required "content_snippet" TStr;
     required "relevance_score" (TFloat unit_interval);
     required "metadata" DocumentMetadata].

(** [type] carries the comment "'article', 'video', 'exercise',
    'project'"; [estimated_time] is in minutes. *)
Definition LearningResource : ftype :=
  BaseModel "LearningResource"
    [required "id" TStr;
     required "title" TStr;
     required "type" TStr;
     defaulted "url" (TOptional TStr) VNone;
     defaulted "content" (TOptional TStr) VNone;
     required "difficulty_level" (TEnum DifficultyLevel);
     required "estimated_time" (TInt unbounded)].

(** [estimated_time] is in hours. *)
Definition Milestone : ftype :=
  BaseModel "Milestone"
    [required "id" TStr;
     required "title" TStr;
     required "description" TStr;
     defaulted "required_skills" (TList TStr) (VList []);
     defaulted "completion_criteria" (TList TStr) (VList []);
     required "estimated_time" (TInt unbounded)].

(** [estimated_duration] is in hours. *)
Definition LearningPath : ftype :=
  BaseModel "LearningPath"
    [required "id" TStr;
     required "user_id" TStr;
     required "title" TStr;
     required "description" TStr;
     defaulted "target_skills" (TList TStr) (VList []);
     required "estimated_duration" (TInt unbounded);
     defaulted "difficulty_progression" (TList (TEnum DifficultyLevel))
               (VList []);
     defaulted "milestones" (TList Milestone) (VList []);
     defaulted "resources" (TList LearningResource) (VList [])].

Definition SkillImprovement : ftype :=
  BaseModel "SkillImprovement"
    [required "topic" TStr;
     required "previous_level" (TFloat unbounded);
     required "current_level" (TFloat unbounded);
     required "improvement_date" TDatetime].

(** [time_spent] is in minutes. *)
Definition ProgressMetrics : ftype :=
  BaseModel "ProgressMetrics"
    [defaulted "topics_covered" (TList TStr) (VList []);
     required "time_spent" (TInt unbounded);
     defaulted "concepts_learned" (TInt unbounded) (VInt 0);
     defaulted "questions_asked" (TInt unbounded) (VInt 0);
     defaulted "feedback_given" (TInt unbounded) (VInt 0);
     defaulted "skill_improvements" (TList SkillImprovement) (VList [])].

Definition AnalyticsData : ftype :=
  BaseModel "AnalyticsData"
    [required "user_id" TStr;
     required "session_id" TStr;
     required "event_type" TStr;
     defaulted "event_data" (TDict TAny) (VDict []);
     required "timestamp" TDatetime].

Definition AuthResponse : ftype :=
  BaseModel "AuthResponse"
    [required "user" User;
     required "access_token" TStr;
     required "refresh_token" TStr;
     required "expires_in" (TInt unbounded)].

Definition ApiResponse : ftype :=
  BaseModel "ApiResponse"
    [required "success" TBool;
     defaulted "data" (TOptional TAny) VNone;
     defaulted "error" (TOptional TStr) VNone;
     defaulted "message" (TOptional TStr) VNone].

Definition PaginatedResponse : ftype :=
  BaseModel "PaginatedResponse"
    [required "data" (TList TAny);
     required "total" (TInt unbounded);
     required "page" (TInt unbounded);
     required "limit" (TInt unbounded);
     required "has_next" TBool;
     required "has_prev" TBool].

Definition ApiError : ftype :=
  BaseModel "ApiError"
    [required "code" TStr;
     required "message" TStr;
     defaulted "details" (TOptional (TDict TAny)) VNone].

Definition ValidationError : ftype :=
  BaseModel "ValidationError"
    [required "field" TStr;
     required "message" TStr;
     defaulted "value" (TOptional TAny) VNone].

(** RAG system types *)

Definition IngestionResult : ftype :=
  BaseModel "IngestionResult"
    [required "documents_processed" (TInt unbounded);
     required "documents_failed" (TInt unbounded);
     required "total_chunks" (TInt unbounded);
     required "processing_time" (TFloat unbounded)].

Definition GenerationContext : ftype :=
  BaseModel "GenerationContext"
    [required "query" TStr;
     required "retrieved_documents" (TList SearchResult);
     required "context_text" TStr;
     defaulted "relevance_threshold" (TFloat unbounded) (VFloat f0_7)].

(** Skill assessment types *)

Definition SkillAssessment : ftype :=
  BaseModel "SkillAssessment"
    [required "user_id" TStr;
     required "assessed_skills" (TDict SkillLevel);
     required "confidence_score" (TFloat unit_interval);
     required "assessment_date" TDatetime;
     required "assessment_method" TStr].

Definition PersonalizedResponse : ftype :=
  BaseModel "PersonalizedResponse"
    [required "original_response" TStr;
     required "personalized_content" TStr;
     required "adaptation_factors" (TList TStr);
     required "confidence_score" (TFloat unit_interval)].

(** [estimated_time_savings] is in minutes. *)
Definition WorkflowOptimization : ftype :=
  BaseModel "WorkflowOptimization"
    [required "current_workflow" TStr;
     required "optimized_workflow" TStr;
     required "improvements" (TList TStr);
     required "estimated_time_savings" (TInt unbounded);
     required "difficulty_reduction" (TFloat unit_interval)].

(** Every class of the module, in source order. *)
Definition registry : list ftype :=
  [NotificationSettings; UserPreferences; SkillLevel; ExpertiseLevel;
   UserFeedback; LearningInteraction; LearningContext; User; Example_;
   Analogy; StepByStep; ConceptExplanation; LineExplanation; Issue;
   CodeExplanation; Fix; DebuggingSuggestion; DocumentMetadata;
   KnowledgeDocument; UserRegistration; LoginCredentials;
   ConversationMessage; SessionContext; UserContext; SearchFilters;
   SearchResult; LearningResource; Milestone; LearningPath;
   SkillImprovement; ProgressMetrics; AnalyticsData; AuthResponse;
   ApiResponse; PaginatedResponse; ApiError; ValidationError;
   IngestionResult; GenerationContext; SkillAssessment;
   PersonalizedResponse; WorkflowOptimization].

(** Every enumeration of the module. *)
Definition enums : list enum :=
  [DifficultyLevel; ExplanationDepth; ExplanationStyle; InteractionType;
   DocumentType; IssueType; IssueSeverity].

End Types.

Import Types.

(* ================================================================= *)
(** ** Conversions of pydantic's default mode *)

Module Conversions.

(** The integer a float denotes, when it has no fractional part. *)
Definition int_of_float (f : float) : option Z :=
  match f with
  | S754_zero _ => Some 0
  | S754_finite s m e =>
      let* a :=
        (if e <? 0 then
           if Z.pos m mod 2 ^ (- e) =? 0 then Some (Z.pos m / 2 ^ (- e))
           else None
         else Some (Z.pos m * 2 ^ e)) in
      if Z.abs a <? 2 ^ 63 then Some (if s then - a else a) else None
  | _ => None
  end.

Fixpoint digits_value (acc : Z) (s : string) : option Z :=
  match s with
  | EmptyString => Some acc
  | String c s' =>
      let* d := Datetime.digit_val c in digits_value (10 * acc + d) s'
  end.

Definition natural_of_str (s : string) : option Z :=
  if (1 <=? String.length s)%nat && (String.length s <=? 18)%nat
  then digits_value 0 s else None.

(** Decimal integers: an optional sign and one to eighteen digits. *)
Definition int_of_str (s : string) : option Z :=
  match s with
  | EmptyString => None
  | String c s' =>
      if Ascii.eqb c "-" then option_map Z.opp (natural_of_str s')
      else if Ascii.eqb c "+" then natural_of_str s'
      else natural_of_str s
  end.

Definition float_of_int (z : Z) : option float :=
  if Z.abs z <=? 2 ^ 53 then Some (binary_normalize 53 1024 z 0 false)
  else None.

Definition bool_of_str (s : string) : option bool :=
  if mem s ["1"; "on"; "t"; "true"; "y"; "yes"] then Some true
  else if mem s ["0"; "off"; "f"; "false"; "n"; "no"] then Some false
  else None.

(** A table of conversions that pydantic performs in its default mode,
    in version 1 as in version 2: booleans, floats without fractional
    part and decimal strings as integers; integers and booleans as
    floats; 0, 1 and the usual words as booleans.  The library accepts
    further spellings (blanks around a number, timestamps as
    datetimes, ...), which the table declines; the only refusals a
    property below relies on are those of None, of a list and of a
    string without digits as an integer, which the library refuses
    too. *)
Definition pydantic_lax : lax :=
  Lax
    (fun _ => None)
    (fun x =>
       match x with
       | VBool b => Some (if b then 1 else 0)
       | VFloat f => int_of_float f
       | VStr s => int_of_str s
       | _ => None
       end)
    (fun x =>
       match x with
       | VInt z => float_of_int z
       | VBool b => Some (if b then f1_0 else f0_0)
       | _ => None
       end)
    (fun x =>
       match x with
       | VInt z => if z =? 0 then Some false
                   else if z =? 1 then Some true else None
       | VStr s => bool_of_str s
       | _ => None
       end)
    (fun _ => None).

End Conversions.

Import Conversions.

(* ================================================================= *)
(** ** Serialization *)

Module Wire.

(** A float that is a JSON number: neither an infinity nor a NaN. *)
Definition is_finite (f : float) : bool :=
  match f with
  | S754_zero _ | S754_finite _ _ _ => true
  | S754_infinity _ | S754_nan => false
  end.

(** Modelled from the spec: the wire shape of a record (no serializer
    is declared in python_types.py).  A record is written as a JSON
    object keyed by its field names, a nested record as a nested
    object, a sequence as an array, an enum member as its string and a
    datetime as its ISO-8601 text.  JSON has no number for an infinity
    or a NaN: such a float is written as null, as pydantic's JSON mode
    does.  The other values are written as they are. *)
Fixpoint serialize (v : value) : value :=
  match v with
  | VFloat f => if is_finite f then v else VNone
  | VDatetime d => VStr (Datetime.isoformat d)
  | VList xs => VList (map serialize xs)
  | VDict kvs =>
      VDict ((fix entries (kvs : list (string * value)) :=
                match kvs with
                | [] => []
                | (k, x) :: rest => (k, serialize x) :: entries rest
                end) kvs)
  | _ => v
  end.

(** JSON-compatible data: no datetime object and no infinite or NaN
    float inside. *)
Fixpoint plain (v : value) : bool :=
  match v with
  | VFloat f => is_finite f
  | VDatetime _ => false
  | VList xs => forallb plain xs
  | VDict kvs =>
      (fix entries (kvs : list (string * value)) :=
         match kvs with
         | [] => true
         | (_, x) :: rest => plain x && entries rest
         end) kvs
  | _ => true
  end.

End Wire.

Import Wire.

(* ================================================================= *)
(** ** Vocabulary of the properties *)

Module Shape.

Definition is_valid {A : Type} (r : result A) : bool :=
  match r with Valid _ => true | Invalid _ => false end.

(** The violations of a result (none when it is valid). *)
Definition violations {A : Type} (r : result A) : list violation :=
  match r with Valid _ => [] | Invalid es => es end.

(** [obj.name] on a stored instance. *)
Definition attr (name : string) (v : value) : option value :=
  match v with VDict kvs => get name kvs | _ => None end.

(** The value lies within the bounds, both inclusive. *)
Definition within {A : Type} (leb : A -> A -> bool) (b : bounds A) (a : A)
  : bool :=
  match le b with Some hi => leb a hi | None => true end
  && match ge b with Some lo => leb lo a | None => true end.

(** The attributes of a class against the keyword arguments, in
    declaration order: the loop inside [validate] at a [BaseModel]. *)
Definition attributes (L : lax) (kwargs : list (string * value))
  : list field -> result (list (string * value)) :=
  fix attributes (fs : list field) :=
    match fs with
    | [] => Valid []
    | f :: rest =>
        both cons
          (attribute_value (validate L (ftyp f)) (fname f) (fdefault f)
                           kwargs)
          (attributes rest)
    end.

(** [conforms t v]: [v] is a stored value of annotation [t]. *)
Fixpoint conforms (t : ftype) (v : value) {struct t} : bool :=
  match t with
  | TStr => match v with VStr _ => true | _ => false end
  | TInt b => match v with VInt z => within Z.leb b z | _ => false end
  | TFloat b => match v with VFloat f => within SFleb b f | _ => false end
  | TBool => match v with VBool _ => true | _ => false end
  | TDatetime => match v with VDatetime _ => true | _ => false end
  | TAny => true
  | TEnum e => match v with VStr s => mem s (values e) | _ => false end
  | TList t' =>
      match v with VList xs => forallb (conforms t') xs | _ => false end
  | TDict t' =>
      match v with
      | VDict kvs => forallb (fun kv => conforms t' (snd kv)) kvs
      | _ => false
      end
  | TOptional t' =>
      match v with VNone => true | _ => conforms t' v end
  | BaseModel _ fs =>
      match v with
      | VDict kvs =>
          (fix zip (fs : list field) (kvs : list (string * value)) : bool :=
             match fs, kvs with
             | [], [] => true
             | f :: fs', kv :: kvs' =>
                 String.eqb (fname f) (fst kv)
                 && conforms (ftyp f) (snd kv) && zip fs' kvs'
             | _, _ => false
             end) fs kvs
      | _ => false
      end
  end.

(** [json_safe t v]: the stored value [v] of annotation [t] can be
    written as JSON without loss: its floats are finite, its datetimes
    are naive or have an offset of whole minutes, and what it stores
    under the [Any] annotations of [t] is JSON-compatible data. *)
Fixpoint json_safe (t : ftype) (v : value) {struct t} : bool :=
  match t with
  | TFloat _ => match v with VFloat f => is_finite f | _ => true end
  | TDatetime =>
      match v with VDatetime d => Datetime.whole_minutes d | _ => true end
  | TAny => plain v
  | TList t' =>
      match v with VList xs => forallb (json_safe t') xs | _ => true end
  | TDict t' =>
      match v with
      | VDict kvs => forallb (fun kv => json_safe t' (snd kv)) kvs
      | _ => true
      end
  | TOptional t' => json_safe t' v
  | BaseModel _ fs =>
      match v with
      | VDict kvs =>
          (fix zip (fs : list field) (kvs : list (string * value)) : bool :=
             match fs, kvs with
             | f :: fs', kv :: kvs' =>
                 json_safe (ftyp f) (snd kv) && zip fs' kvs'
             | _, _ => true
             end) fs kvs
      | _ => true
      end
  | _ => true
  end.

Fixpoint distinct (names : list string) : bool :=
  match names with
  | [] => true
  | n :: rest => negb (mem n rest) && distinct rest
  end.

(** A declaration is well formed when the attribute names of every
    class are distinct and every default is a stored value of its
    annotation (Python keeps one attribute per name; pydantic takes a
    default as it is). *)
Fixpoint well_formed (t : ftype) : bool :=
  match t with
  | TList t' | TDict t' | TOptional t' => well_formed t'
  | BaseModel _ fs =>
      distinct (map fname fs)
      && (fix each (fs : list field) : bool :=
            match fs with
            | [] => true
            | f :: rest =>
                match fdefault f with
                | Some d => conforms (ftyp f) d
                | None => true
                end && well_formed (ftyp f) && each rest
            end) fs
  | _ => true
  end.

(** The declared attributes of a class. *)
Definition attributes_of (t : ftype) : list field :=
  match t with BaseModel _ fs => fs | _ => [] end.

Definition unit_range (x : float) : bool := SFleb f0_0 x && SFleb x f1_0.

Definition rating_range (z : Z) : bool := (1 <=? z) && (z <=? 5).

End Shape.

Import Shape.

(* ================================================================= *)
(** ** Arguments of the scenarios *)

Module Scenario.

(** [kwargs] with the argument [k] set to [x] (replacing an earlier
    binding of [k]). *)
Definition put (k : string) (x : value) (kwargs : list (string * value))
  : list (string * value) :=
  (k, x) :: filter (fun kv => negb (String.eqb k (fst kv))) kwargs.

Definition accepts (L : lax) (t : ftype) (kwargs : list (string * value))
  : bool :=
  is_valid (construct L t kwargs).

(** 2024-01-01T00:00:00Z *)
Definition new_year : Datetime.t :=
  Datetime.Make (Datetime.Fields 2024 1 1 0 0 0 0 (Some 0)) eq_refl.

Definition skill_level_args (confidence : value) : list (string * value) :=
  [("topic", VStr "recursion"); ("level", VStr "advanced");
   ("confidence", confidence);
   ("last_assessed", VStr "2024-01-01T00:00:00Z")].

(** The instance stored for [skill_level_args 0.85]. *)
Definition skill_level_stored : value :=
  VDict [("topic", VStr "recursion"); ("level", VStr "advanced");
         ("confidence", VFloat f0_85);
         ("last_assessed", VDatetime new_year)].

Definition metadata_args : list (string * value) :=
  [("author", VStr "ada"); ("created_date", VDatetime new_year);
   ("last_updated", VDatetime new_year); ("version", VStr "1")].

Definition search_result_args (score : value) : list (string * value) :=
  [("document_id", VStr "d1"); ("title", VStr "Recursion");
   ("content_snippet", VStr "a function that calls itself");
   ("relevance_score", score); ("metadata", VDict metadata_args)].

Definition skill_assessment_args (score : value) : list (string * value) :=
  [("user_id", VStr "u1");
   ("assessed_skills", VDict [("recursion", skill_level_stored)]);
   ("confidence_score", score);
   ("assessment_date", VDatetime new_year);
   ("assessment_method", VStr "quiz")].

Definition feedback_args (rating clarity accuracy : value)
  : list (string * value) :=
  [("rating", rating); ("helpful", VBool true);
   ("clarity_rating", clarity); ("accuracy_rating", accuracy)].

Definition feedback_stored (rating clarity accuracy : Z) : value :=
  VDict [("rating", VInt rating); ("helpful", VBool true);
         ("clarity_rating", VInt clarity);
         ("accuracy_rating", VInt accuracy); ("comments", VNone)].

Definition resource_args (type estimated_time : value)
  : list (string * value) :=
  [("id", VStr "r1"); ("title", VStr "Intro"); ("type", type);
   ("difficulty_level", VStr "beginner");
   ("estimated_time", estimated_time)].

Definition milestone_args (estimated_time : value)
  : list (string * value) :=
  [("id", VStr "m1"); ("title", VStr "Basics");
   ("description", VStr "first steps");
   ("estimated_time", estimated_time)].

Definition interaction_args (processing_time : value)
  : list (string * value) :=
  [("id", VStr "i1"); ("user_id", VStr "u1");
   ("type", VStr "code_analysis"); ("query", VStr "why?");
   ("response", VStr "because"); ("timestamp", VDatetime new_year);
   ("processing_time", processing_time)].

Definition progress_args (time_spent : value) : list (string * value) :=
  [("time_spent", time_spent)].

Definition expertise_args (score : value) : list (string * value) :=
  [("overall_level", VStr "beginner");
   ("domain_expertise", VDict [("python", score)])].

Definition issue_args (severity : value) : list (string * value) :=
  [("type", VStr "error"); ("description", VStr "unused variable");
   ("solution", VStr "remove it"); ("severity", severity)].

Definition page_args (page limit : Z) : list (string * value) :=
  [("data", VList []); ("total", VInt 0); ("page", VInt page);
   ("limit", VInt limit); ("has_next", VBool false);
   ("has_prev", VBool false)].

Definition generation_args : list (string * value) :=
  [("query", VStr "what is recursion?");
   ("retrieved_documents", VList [VDict (search_result_args (VFloat f0_85))]);
   ("context_text", VStr "a function that calls itself")].

Definition message_args (role : value) : list (string * value) :=
  [("role", role); ("content", VStr "hello");
   ("timestamp", VDatetime new_year)].

(** [ApiResponse(success=True, data=<datetime object>)] as it is stored
    and as it is stored after a trip over the wire. *)
Definition response_args : list (string * value) :=
  [("success", VBool true); ("data", VDatetime new_year)].

Definition response_stored : value :=
  VDict [("success", VBool true); ("data", VDatetime new_year);
         ("error", VNone); ("message", VNone)].

Definition response_reread : value :=
  VDict [("success", VBool true); ("data", VStr "2024-01-01T00:00:00Z");
         ("error", VNone); ("message", VNone)].

(** The attribute [name: ty] is declared by the class [t], without
    default. *)
Definition declares (t : ftype) (name : string) (ty : ftype) : Prop :=
  In (required name ty) (attributes_of t).

(** The score, confidence and relevance attributes of the claims. *)
Definition score_fields : list (ftype * string) :=
  [(SkillLevel, "confidence"); (SearchResult, "relevance_score");
   (SkillAssessment, "confidence_score")].

(** The rating attributes of [UserFeedback]. *)
Definition rating_fields : list string :=
  ["rating"; "clarity_rating"; "accuracy_rating"].

(** The argument denotes a rating: it is an [int], or a value the
    library converts to one, and the integer is one of 1, 2, 3, 4, 5. *)
Definition denotes_rating (L : lax) (x : value) : bool :=
  match as_int L x with
  | Some z => rating_range z
  | None => false
  end.

(** The integer durations: minutes, hours, minutes. *)
Definition duration_fields : list (ftype * string) :=
  [(LearningResource, "estimated_time"); (Milestone, "estimated_time");
   (ProgressMetrics, "time_spent")].

(** 1937-01-01T12:00:00 at the offset +00:19:32 (the Amsterdam time of
    that year, [timezone(timedelta(minutes=19, seconds=32))]), and the
    datetime its ISO-8601 text [1937-01-01T12:00:00+00:19] denotes. *)
Definition amsterdam_noon : Datetime.t :=
  Datetime.Make (Datetime.Fields 1937 1 1 12 0 0 0 (Some 1172000000))
                eq_refl.

Definition amsterdam_reread : Datetime.t :=
  Datetime.Make (Datetime.Fields 1937 1 1 12 0 0 0 (Some 1140000000))
                eq_refl.

(** A SkillLevel assessed at a given datetime, as it is stored. *)
Definition skill_level_at (d : Datetime.t) : value :=
  VDict [("topic", VStr "recursion"); ("level", VStr "advanced");
         ("confidence", VFloat f0_85); ("last_assessed", VDatetime d)].

(** A SkillImprovement whose previous_level is the float infinity; it
    is stored as given. *)
Definition improvement_args : list (string * value) :=
  [("topic", VStr "recursion");
   ("previous_level", VFloat (S754_infinity false));
   ("current_level", VFloat f0_85);
   ("improvement_date", VDatetime new_year)].

End Scenario.

Import Scenario.

(* ================================================================= *)
(** ** Induction principles *)

Module Induction.

(** Induction over annotations, with the hypothesis for every
    attribute of a class. *)
Definition ftype_induction (P : ftype -> Prop)
  (HStr : P TStr) (HInt : forall b, P (TInt b))
  (HFloat : forall b, P (TFloat b)) (HBool : P TBool)
  (HDatetime : P TDatetime) (HAny : P TAny) (HEnum : forall e, P (TEnum e))
  (HList : forall t, P t -> P (TList t))
  (HDict : forall t, P t -> P (TDict t))
  (HOptional : forall t, P t -> P (TOptional t))
  (HModel : forall cls fs,
      Forall (fun f => P (ftyp f)) fs -> P (BaseModel cls fs))
  : forall t, P t :=
  fix go (t : ftype) : P t :=
    match t with
    | TStr => HStr
    | TInt b => HInt b
    | TFloat b => HFloat b
    | TBool => HBool
    | TDatetime => HDatetime
    | TAny => HAny
    | TEnum e => HEnum e
    | TList t' => HList t' (go t')
    | TDict t' => HDict t' (go t')
    | TOptional t' => HOptional t' (go t')
    | BaseModel cls fs =>
        HModel cls fs
          ((fix each (fs : list field) : Forall (fun f => P (ftyp f)) fs :=
              match fs with
              | [] => Forall_nil _
              | f :: rest => Forall_cons f (go (ftyp f)) (each rest)
              end) fs)
    end.

(** Induction over values, with the hypothesis for every item of a
    list and every value of a dict. *)
Definition value_induction (P : value -> Prop)
  (HNone : P VNone) (HBool : forall b, P (VBool b))
  (HInt : forall z, P (VInt z)) (HFloat : forall f, P (VFloat f))
  (HStr : forall s, P (VStr s)) (HDatetime : forall d, P (VDatetime d))
  (HList : forall xs, Forall P xs -> P (VList xs))
  (HDict : forall kvs, Forall (fun kv => P (snd kv)) kvs -> P (VDict kvs))
  : forall v, P v :=
  fix go (v : value) : P v :=
    match v with
    | VNone => HNone
    | VBool b => HBool b
    | VInt z => HInt z
    | VFloat f => HFloat f
    | VStr s => HStr s
    | VDatetime d => HDatetime d
    | VList xs =>
        HList xs
          ((fix each (xs : list value) : Forall P xs :=
              match xs with
              | [] => Forall_nil _
              | x :: rest => Forall_cons x (go x) (each rest)
              end) xs)
    | VDict kvs =>
        HDict kvs
          ((fix each (kvs : list (string * value))
              : Forall (fun kv => P (snd kv)) kvs :=
              match kvs with
              | [] => Forall_nil _
              | kv :: rest =>
                  Forall_cons kv
                    (match kv return P (snd kv) with (_, x) => go x end)
                    (each rest)
              end) kvs)
    end.

End Induction.

Import Induction.

(* ================================================================= *)
(** ** Vocabulary of the further properties *)

Module Coverage.

(** An attribute declared without default. *)
Definition is_required (f : field) : bool :=
  match fdefault f with None => true | Some _ => false end.

(** The names of the required attributes, in declaration order. *)
Definition required_names (fs : list field) : list string :=
  map fname (filter is_required fs).

(** The violation reported for a required attribute that has no
    argument in [kwargs]. *)
Definition missing (kwargs : list (string * value)) (name : string)
  : violation :=
  Violation [Name name] (VDict kwargs) Missing.

(** The violations of one attribute in a constructor call. *)
Definition attribute_violations_of (L : lax)
           (kwargs : list (string * value)) (f : field) : list violation :=
  violations (attribute_value (validate L (ftyp f)) (fname f) (fdefault f)
                              kwargs).

(** Two calls give the same argument to every attribute of the class. *)
Definition same_arguments (t : ftype) (k1 k2 : list (string * value))
  : Prop :=
  forall f, In f (attributes_of t) -> get (fname f) k1 = get (fname f) k2.

(** The stored instance has exactly the attributes of the class, in
    declaration order. *)
Definition has_shape (t : ftype) (v : value) : Prop :=
  exists kvs, v = VDict kvs /\ map fst kvs = map fname (attributes_of t).

(** The annotation mentions the enumeration named as [e]. *)
Fixpoint mentions (e : enum) (t : ftype) {struct t} : bool :=
  match t with
  | TEnum e' => String.eqb (ename e) (ename e')
  | TList t' | TDict t' | TOptional t' => mentions e t'
  | BaseModel _ fs =>
      (fix any (fs : list field) : bool :=
         match fs with
         | [] => false
         | f :: rest => mentions e (ftyp f) || any rest
         end) fs
  | _ => false
  end.

(** The attributes of a class that have an annotation of the form
    [Optional[...]]. *)
Definition is_optional (f : field) : bool :=
  match ftyp f with TOptional _ => true | _ => false end.

(** The default of the attribute is [None]. *)
Definition none_by_default (f : field) : bool :=
  match fdefault f with Some VNone => true | _ => false end.

(** A rejected input carries at least one violation. *)
Definition reported {A : Type} (r : result A) : Prop :=
  is_valid r = false -> violations r <> [].

(** Edge values of a binary64 score: negative zero, the infinities and
    a NaN. *)
Definition fm0_0 : float := S754_zero true.
Definition f_inf : float := S754_infinity false.
Definition fm_inf : float := S754_infinity true.
Definition f_nan : float := S754_nan.

Definition personalized_args (score : value) : list (string * value) :=
  [("original_response", VStr "a loop");
   ("personalized_content", VStr "a walk");
   ("adaptation_factors", VList [VStr "beginner"]);
   ("confidence_score", score)].

Definition workflow_args (reduction : value) : list (string * value) :=
  [("current_workflow", VStr "manual");
   ("optimized_workflow", VStr "scripted");
   ("improvements", VList []); ("estimated_time_savings", VInt 15);
   ("difficulty_reduction", reduction)].

Definition user_args (id email username : string)
           (created updated : Datetime.t) : list (string * value) :=
  [("id", VStr id); ("email", VStr email); ("username", VStr username);
   ("created_at", VDatetime created); ("updated_at", VDatetime updated)].

Definition auth_args : list (string * value) :=
  [("user", VDict (user_args "u1" "ada@example.org" "ada" new_year new_year));
   ("access_token", VStr "t"); ("refresh_token", VStr "r");
   ("expires_in", VInt 3600)].

Definition path_args : list (string * value) :=
  [("id", VStr "p1"); ("user_id", VStr "u1"); ("title", VStr "Python");
   ("description", VStr "the basics"); ("estimated_duration", VInt 10)].

Definition document_args : list (string * value) :=
  [("id", VStr "k1"); ("title", VStr "Recursion");
   ("content", VStr "a function that calls itself");
   ("document_type", VStr "tutorial");
   ("difficulty_level", VStr "beginner"); ("source", VStr "docs");
   ("metadata", VDict metadata_args)].

End Coverage.

Import Coverage.

(* ================================================================= *)
(** ** ISO-8601 text read back as the datetime it was written from *)

Module DatetimeFacts.
Import Datetime.

Lemma digit_val_digit (d : Z) : 0 <= d <= 9 -> digit_val (digit d) = Some d.
Proof.
  intros H.
  assert (d = 0 \/ d = 1 \/ d = 2 \/ d = 3 \/ d = 4 \/ d = 5 \/ d = 6
          \/ d = 7 \/ d = 8 \/ d = 9) as C by lia.
  repeat (destruct C as [-> | C]; [reflexivity |]).
  subst d; reflexivity.
Qed.

Lemma read_digits_pad (k : nat) :
  forall acc n rest, 0 <= n ->
    read_digits k acc (pad k n ++ rest)
    = Some (acc * 10 ^ Z.of_nat k + n mod 10 ^ Z.of_nat k, rest).
Proof.
  induction k as [| k IH]; intros acc n rest Hn.
  - simpl. rewrite Z.mod_1_r. f_equal. f_equal. lia.
  - cbn [pad read_digits append].
    assert (0 < 10 ^ Z.of_nat k) as Hp by (apply Z.pow_pos_nonneg; lia).
    rewrite digit_val_digit
      by (pose proof (Z.mod_pos_bound (n / 10 ^ Z.of_nat k) 10); lia).
    rewrite IH by assumption.
    f_equal. f_equal.
    rewrite Nat2Z.inj_succ, Z.pow_succ_r by lia.
    rewrite (Z.mul_comm 10 (10 ^ Z.of_nat k)).
    rewrite (Z.rem_mul_r n (10 ^ Z.of_nat k) 10) by lia.
    ring.
Qed.

Lemma read_pad (k : nat) (n : Z) (rest : string) :
  0 <= n < 10 ^ Z.of_nat k ->
  read_digits k 0 (pad k n ++ rest) = Some (n, rest).
Proof.
  intros H. rewrite read_digits_pad by lia.
  rewrite Z.mod_small by lia. reflexivity.
Qed.

Lemma append_empty_r (s : string) : s ++ "" = s.
Proof. induction s as [| c s IH]; simpl; [| rewrite IH]; reflexivity. Qed.

Lemma read_pad_end (k : nat) (n : Z) :
  0 <= n < 10 ^ Z.of_nat k -> read_digits k 0 (pad k n) = Some (n, "").
Proof.
  intros H. rewrite <- (append_empty_r (pad k n)). apply read_pad, H.
Qed.

Lemma between_spec (lo hi x : Z) :
  between lo hi x = true <-> lo <= x <= hi.
Proof. unfold between. rewrite andb_true_iff, !Z.leb_le. tauto. Qed.

(** The minutes written for an offset of whole minutes. *)
Lemma offset_minutes (o : Z) :
  - day_us < o < day_us -> o mod minute_us = 0 ->
  0 <= Z.abs o / minute_us < 1440
  /\ Z.abs o = Z.abs o / minute_us * minute_us.
Proof.
  unfold day_us, minute_us. intros H Hm.
  apply Z.mod_divide in Hm; [| lia]. destruct Hm as [q ->].
  rewrite Z.abs_mul. change (Z.abs 60000000) with 60000000.
  rewrite Z.div_mul by lia. lia.
Qed.

Lemma read_offset_text (tz : option Z) :
  match tz with
  | Some o => - day_us < o < day_us /\ o mod minute_us = 0
  | None => True
  end ->
  read_offset (offset_text tz) = Some tz.
Proof.
  destruct tz as [o |]; [| reflexivity].
  intros [H Hw]. unfold offset_text.
  destruct (Z.eqb_spec o 0) as [-> | Hne]; [reflexivity |].
  destruct (offset_minutes o H Hw) as [Hm Ho].
  set (m := Z.abs o / minute_us) in *. cbv zeta.
  assert (0 <= m / 60 <= 23) as Hh
    by (split; [apply Z.div_pos | apply Z.lt_succ_r,
                                   Z.div_lt_upper_bound]; lia).
  pose proof (Z.mod_pos_bound m 60 ltac:(lia)) as Hmm.
  pose proof (Z.div_mod m 60 ltac:(lia)) as Hdm.
  assert ((m / 60 <=? 23) && (m mod 60 <=? 59) = true) as Hr
    by (apply andb_true_iff; split; apply Z.leb_le; lia).
  destruct (Z.ltb_spec o 0) as [Hneg | Hpos];
    cbn [read_offset Ascii.eqb Bool.eqb]; unfold read_hhmm;
    rewrite read_pad by (change (10 ^ Z.of_nat 2) with 100; lia);
    cbn [expect Ascii.eqb Bool.eqb];
    rewrite read_pad_end by (change (10 ^ Z.of_nat 2) with 100; lia);
    rewrite Hr; do 2 f_equal; lia.
Qed.

Lemma read_fraction_text (us : Z) (rest : string) :
  0 <= us <= 999999 ->
  match rest with String c _ => Ascii.eqb c "." = false | _ => True end ->
  read_fraction (fraction_text us rest) = Some (us, rest).
Proof.
  intros Hus Hrest. unfold fraction_text.
  destruct (Z.eqb_spec us 0) as [-> | Hne].
  - destruct rest as [| c r]; [reflexivity |].
    unfold read_fraction. rewrite Hrest. reflexivity.
  - cbn [read_fraction Ascii.eqb Bool.eqb].
    apply read_pad. change (10 ^ Z.of_nat 6) with 1000000. lia.
Qed.

Lemma offset_text_head (tz : option Z) :
  match offset_text tz with
  | String c _ => Ascii.eqb c "." = false
  | EmptyString => True
  end.
Proof.
  destruct tz as [o |]; [| exact I]. unfold offset_text.
  destruct (o =? 0); [reflexivity |]. destruct (o <? 0); reflexivity.
Qed.

Lemma valid_spec (f : fields) :
  valid f = true ->
  1 <= year f <= 9999 /\ 1 <= month f <= 12 /\ 1 <= day f <= 31
  /\ 0 <= hour f <= 23 /\ 0 <= minute f <= 59 /\ 0 <= second f <= 59
  /\ 0 <= microsecond f <= 999999
  /\ match utcoffset f with
     | Some o => - day_us < o < day_us
     | None => True
     end.
Proof.
  unfold valid. rewrite !andb_true_iff, !between_spec.
  intros [[[[[[[Hy Hmo] Hd] Hh] Hmi] Hs] Hus] Htz].
  repeat split; try lia.
  - unfold days_in_month in Hd.
    destruct (month f =? 2); [destruct (is_leap (year f)); lia |].
    destruct ((month f =? 4) || (month f =? 6) || (month f =? 9)
              || (month f =? 11)); lia.
  - destruct (utcoffset f); [| exact I].
    apply between_spec in Htz. lia.
Qed.

(** The text of a datetime that is naive or has an offset of whole
    minutes is read back as its attributes. *)
Lemma parse_format (f : fields) :
  valid f = true ->
  match utcoffset f with Some o => o mod minute_us = 0 | None => True end ->
  parse_fields (format_fields f) = Some f.
Proof.
  intros Hv Hw. apply valid_spec in Hv.
  destruct Hv as (Hy & Hmo & Hd & Hh & Hmi & Hs & Hus & Htz).
  destruct f as [y mo d h mi s us tz]; cbn [year month day hour minute
    second microsecond utcoffset] in *.
  unfold parse_fields, format_fields; cbn [year month day hour minute
    second microsecond utcoffset].
  rewrite read_pad by (change (10 ^ Z.of_nat 4) with 10000; lia).
  cbn [expect Ascii.eqb Bool.eqb].
  repeat (rewrite read_pad by (change (10 ^ Z.of_nat 2) with 100; lia);
          cbn [expect Ascii.eqb Bool.eqb]).
  rewrite read_fraction_text by (assumption || apply offset_text_head).
  rewrite read_offset_text by (destruct tz; [split |]; assumption).
  reflexivity.
Qed.

Lemma check_attrs (d : t) : check (attrs d) = Some d.
Proof.
  destruct d as [f H]. unfold check; cbn [attrs].
  destruct (bool_dec (valid f) true) as [H' | H']; [| contradiction].
  do 2 f_equal. apply UIP_dec, bool_dec.
Qed.

Lemma fromisoformat_isoformat (d : t) :
  whole_minutes d = true -> fromisoformat (isoformat d) = Some d.
Proof.
  intros Hw. unfold fromisoformat, isoformat.
  rewrite parse_format.
  - apply check_attrs.
  - apply attrs_valid.
  - unfold whole_minutes in Hw.
    destruct (utcoffset (attrs d)); [apply Z.eqb_eq, Hw | exact I].
Qed.
End DatetimeFacts.

(* ================================================================= *)
(** ** Facts about validation, for any declaration *)

Module ValidationFacts.

Section Generic.

Variable L : lax.

Lemma validate_model (cls : string) (fs : list field)
      (kwargs : list (string * value)) :
  validate L (BaseModel cls fs) (VDict kwargs)
  = rmap VDict (attributes L kwargs fs).
Proof. reflexivity. Qed.

Lemma at_loc_valid {A : Type} (i : loc_item) (r : result A) (a : A) :
  at_loc i r = Valid a <-> r = Valid a.
Proof. destruct r; simpl; split; congruence. Qed.

Lemma rmap_valid {A B : Type} (f : A -> B) (r : result A) (b : B) :
  rmap f r = Valid b <-> exists a, r = Valid a /\ b = f a.
Proof.
  destruct r as [a | es]; simpl; split.
  - intros [= <-]. eauto.
  - intros (a' & [= <-] & ->). reflexivity.
  - discriminate.
  - intros (a' & H & _). discriminate.
Qed.

Lemma both_valid {A B C : Type} (f : A -> B -> C)
      (r1 : result A) (r2 : result B) (c : C) :
  both f r1 r2 = Valid c
  <-> exists a b, r1 = Valid a /\ r2 = Valid b /\ c = f a b.
Proof.
  destruct r1 as [a | e1], r2 as [b | e2]; simpl; split;
    try discriminate;
    try (intros (a' & b' & H1 & H2 & _); discriminate).
  - intros [= <-]. eauto.
  - intros (a' & b' & [= <-] & [= <-] & ->). reflexivity.
Qed.

Lemma in_bounds_valid {A : Type} (leb : A -> A -> bool) (inj : A -> value)
      (b : bounds A) (a : A) (x v : value) :
  in_bounds leb inj b a x = Valid v
  <-> v = inj a /\ within leb b a = true.
Proof.
  unfold in_bounds, within, fail.
  destruct (le b) as [hi |], (ge b) as [lo |]; simpl;
    repeat match goal with
           | |- context [if ?c then _ else _] => destruct c
           end; simpl; split; intros H;
    solve [ discriminate
          | injection H as <-; auto
          | destruct H as [-> H]; (discriminate || reflexivity) ].
Qed.

Lemma scalar_valid {A : Type} (inj : A -> value) (c : constraint)
      (o : option A) (x v : value) :
  scalar inj c o x = Valid v <-> exists a, o = Some a /\ v = inj a.
Proof.
  destruct o as [a |]; simpl; split.
  - intros [= <-]. eauto.
  - intros (a' & [= <-] & ->). reflexivity.
  - discriminate.
  - intros (a' & H & _). discriminate.
Qed.

Lemma items_valid (v : value -> result value) (xs : list value) :
  forall i ys, items v i xs = Valid ys
               <-> Forall2 (fun x y => v x = Valid y) xs ys.
Proof.
  induction xs as [| x xs IH]; intros i ys; simpl.
  - split; [intros [= <-]; constructor | inversion 1; reflexivity].
  - rewrite both_valid. split.
    + intros (a & b & Ha & Hb & ->).
      constructor; [apply at_loc_valid in Ha; exact Ha | apply (IH (S i)), Hb].
    + inversion 1 as [| ? y ? ys' Hx Hxs]; subst.
      exists y, ys'. rewrite at_loc_valid, (IH (S i)). auto.
Qed.

Lemma entries_valid (v : value -> result value)
      (kvs : list (string * value)) :
  forall out, entries v kvs = Valid out
              <-> Forall2 (fun kv o => fst o = fst kv
                                       /\ v (snd kv) = Valid (snd o))
                          kvs out.
Proof.
  induction kvs as [| [k x] kvs IH]; intros out; simpl.
  - split; [intros [= <-]; constructor | inversion 1; reflexivity].
  - rewrite both_valid. split.
    + intros (a & b & Ha & Hb & ->).
      apply rmap_valid in Ha. destruct Ha as (y & Hy & ->).
      apply at_loc_valid in Hy.
      constructor; [simpl; auto | apply IH, Hb].
    + inversion 1 as [| ? [k' y] ? out' [Hk Hx] Hrest]; subst.
      simpl in Hk, Hx. subst k'.
      exists (k, y), out'. rewrite rmap_valid, IH.
      repeat split; auto.
      exists y. rewrite at_loc_valid. auto.
Qed.

(** What a valid attribute stores: the validated argument, or the
    default when there is no argument. *)
Lemma attribute_value_valid (v : value -> result value) (name : string)
      (d : option value) (kwargs : list (string * value))
      (kv : string * value) :
  attribute_value v name d kwargs = Valid kv
  <-> fst kv = name
      /\ ((exists x, get name kwargs = Some x /\ v x = Valid (snd kv))
          \/ (get name kwargs = None /\ d = Some (snd kv))).
Proof.
  unfold attribute_value. destruct (get name kwargs) as [x |].
  - rewrite rmap_valid. split.
    + intros (y & Hy & ->). apply at_loc_valid in Hy. simpl. eauto.
    + intros [<- [(x' & [= <-] & Hx) | [[=] _]]].
      exists (snd kv). rewrite at_loc_valid. split; [exact Hx |].
      destruct kv; reflexivity.
  - destruct d as [dv |]; split.
    + intros [= <-]. simpl. auto.
    + intros [<- [(x' & [=] & _) | [_ [= ->]]]]. destruct kv; reflexivity.
    + discriminate.
    + intros [_ [(x' & [=] & _) | [_ [=]]]].
Qed.

Lemma attributes_valid (kwargs : list (string * value))
      (fs : list field) :
  forall kvs,
    attributes L kwargs fs = Valid kvs
    <-> Forall2 (fun f kv =>
                   attribute_value (validate L (ftyp f)) (fname f)
                                   (fdefault f) kwargs = Valid kv)
                fs kvs.
Proof.
  induction fs as [| f fs IH]; intros kvs; simpl.
  - split; [intros [= <-]; constructor | inversion 1; reflexivity].
  - rewrite both_valid. split.
    + intros (a & b & Ha & Hb & ->). constructor; [exact Ha | apply IH, Hb].
    + inversion 1 as [| ? kv ? kvs' Hf Hfs]; subst.
      exists kv, kvs'. rewrite IH. auto.
Qed.

(** A class is valid exactly when each of its attributes is, and it
    stores their values in declaration order. *)
Lemma construct_valid (cls : string) (fs : list field)
      (kwargs : list (string * value)) (v : value) :
  construct L (BaseModel cls fs) kwargs = Valid v
  <-> exists kvs,
        v = VDict kvs
        /\ Forall2 (fun f kv =>
                      attribute_value (validate L (ftyp f)) (fname f)
                                      (fdefault f) kwargs = Valid kv)
                   fs kvs.
Proof.
  unfold construct. rewrite validate_model, rmap_valid.
  split; intros (kvs & H1 & H2); exists kvs.
  - apply attributes_valid in H1. auto.
  - apply attributes_valid in H2. auto.
Qed.

(** *** Stored values conform to their annotation *)

Lemma conforms_model (cls : string) (fs : list field) :
  forall kvs,
    conforms (BaseModel cls fs) (VDict kvs) = true
    <-> Forall2 (fun f kv => fname f = fst kv
                             /\ conforms (ftyp f) (snd kv) = true)
                fs kvs.
Proof.
  induction fs as [| f fs IH]; intros [| kv kvs]; simpl;
    try (split; [discriminate | inversion 1]).
  - split; [constructor | reflexivity].
  - simpl in IH. rewrite !andb_true_iff, String.eqb_eq, IH. split.
    + intros [[H1 H2] H3]. constructor; auto.
    + inversion 1; subst. tauto.
Qed.

Lemma well_formed_model (cls : string) (fs : list field) :
  well_formed (BaseModel cls fs) = true
  <-> distinct (map fname fs) = true
      /\ Forall (fun f => match fdefault f with
                          | Some d => conforms (ftyp f) d = true
                          | None => True
                          end /\ well_formed (ftyp f) = true) fs.
Proof.
  simpl. rewrite andb_true_iff.
  apply and_iff_compat_l.
  induction fs as [| f fs IH].
  - split; [constructor | reflexivity].
  - rewrite !andb_true_iff, IH. split.
    + intros [[H1 H2] H3]. constructor; [| exact H3].
      split; [destruct (fdefault f); auto | exact H2].
    + inversion 1 as [| ? ? [H1 H2] H3]; subst.
      repeat split; auto. destruct (fdefault f); auto.
Qed.

Lemma validate_conforms :
  forall t, well_formed t = true ->
    forall x v, validate L t x = Valid v -> conforms t v = true.
Proof.
  induction t as [| b | b | | | | e | t IH | t IH | t IH | cls fs IH]
    using ftype_induction; intros Hwf x v Hv; simpl in Hv.
  - apply scalar_valid in Hv. destruct Hv as (s & _ & ->). reflexivity.
  - destruct (as_int L x) as [z |]; [| discriminate].
    apply in_bounds_valid in Hv. destruct Hv as [-> H]. exact H.
  - destruct (as_float L x) as [f |]; [| discriminate].
    apply in_bounds_valid in Hv. destruct Hv as [-> H]. exact H.
  - apply scalar_valid in Hv. destruct Hv as (s & _ & ->). reflexivity.
  - apply scalar_valid in Hv. destruct Hv as (s & _ & ->). reflexivity.
  - reflexivity.
  - destruct x; try discriminate.
    destruct (mem s (values e)) eqn:Hm; [| discriminate].
    injection Hv as <-. exact Hm.
  - destruct x; try discriminate.
    apply rmap_valid in Hv. destruct Hv as (ys & Hys & ->).
    apply items_valid in Hys. simpl. apply forallb_forall.
    induction Hys as [| x y xs' ys' Hxy _ IHys]; intros y' Hin;
      [destruct Hin |].
    destruct Hin as [<- | Hin]; [apply (IH Hwf x y Hxy) | apply IHys, Hin].
  - destruct x; try discriminate.
    apply rmap_valid in Hv. destruct Hv as (out & Hout & ->).
    apply entries_valid in Hout. simpl. apply forallb_forall.
    induction Hout as [| kv o kvs' out' [_ Hxy] _ IHout]; intros o' Hin;
      [destruct Hin |].
    destruct Hin as [<- | Hin]; [apply (IH Hwf _ _ Hxy) | apply IHout, Hin].
  - destruct x; [injection Hv as <-; reflexivity | ..];
      pose proof (IH Hwf _ _ Hv) as Hc; simpl; destruct v; auto.
  - destruct x as [| | | | | | | kwargs]; try discriminate.
    change (construct L (BaseModel cls fs) kwargs = Valid v) in Hv.
    apply construct_valid in Hv. destruct Hv as (kvs & -> & Hkvs).
    apply well_formed_model in Hwf. destruct Hwf as [_ Hwf].
    apply conforms_model.
    induction Hkvs as [| f kv fs' kvs' Hf _ IHk]; [constructor |].
    inversion IH as [| ? ? IHf IHfs]; subst.
    inversion Hwf as [| ? ? [Hd Hwf_f] Hwf_fs]; subst.
    constructor; [| apply IHk; assumption].
    apply attribute_value_valid in Hf.
    destruct Hf as [Hname [(x & _ & Hx) | [_ Hdef]]].
    + split; [congruence | apply (IHf Hwf_f _ _ Hx)].
    + rewrite Hdef in Hd. split; [congruence | exact Hd].
Qed.

(** *** Writing a stored value and reading it back *)

Lemma serialize_dict (kvs : list (string * value)) :
  serialize (VDict kvs)
  = VDict (map (fun kv => (fst kv, serialize (snd kv))) kvs).
Proof.
  simpl. f_equal.
  induction kvs as [| [k x] kvs IH]; simpl; [| rewrite IH]; reflexivity.
Qed.

Lemma plain_dict (kvs : list (string * value)) :
  plain (VDict kvs) = forallb (fun kv => plain (snd kv)) kvs.
Proof.
  simpl.
  induction kvs as [| [k x] kvs IH]; simpl; [| rewrite IH]; reflexivity.
Qed.

Lemma plain_serialize : forall v, plain v = true -> serialize v = v.
Proof.
  induction v as [| | | f | | | xs IH | kvs IH] using value_induction;
    intros Hp; try reflexivity.
  - simpl in Hp |- *. rewrite Hp. reflexivity.
  - discriminate.
  - simpl in *. f_equal.
    induction IH as [| x xs' Hx _ IHxs]; [reflexivity |].
    simpl in Hp. apply andb_true_iff in Hp. destruct Hp as [H1 H2].
    simpl. rewrite Hx, IHxs by assumption. reflexivity.
  - rewrite serialize_dict. rewrite plain_dict in Hp. f_equal.
    induction IH as [| [k x] kvs' Hx _ IHkvs]; [reflexivity |].
    simpl in Hp, Hx. apply andb_true_iff in Hp. destruct Hp as [H1 H2].
    simpl. rewrite Hx, IHkvs by assumption. reflexivity.
Qed.

(** A float stored under an annotation is finite when the value is
    JSON-safe, whatever the annotation. *)
Lemma stored_float_finite :
  forall t f, conforms t (VFloat f) = true ->
              json_safe t (VFloat f) = true -> is_finite f = true.
Proof.
  induction t as [| b | b | | | | e | t IH | t IH | t IH | cls fs IH]
    using ftype_induction; intros f Hc Hp; try discriminate; auto.
Qed.

Lemma mem_in (s : string) (l : list string) :
  mem s l = true <-> In s l.
Proof.
  unfold mem. rewrite existsb_exists. split.
  - intros (y & Hy & He). apply String.eqb_eq in He. congruence.
  - intros H. exists s. split; [exact H | apply String.eqb_refl].
Qed.

Lemma get_distinct (kvs : list (string * value)) :
  distinct (map fst kvs) = true ->
  forall kv, In kv kvs -> get (fst kv) kvs = Some (snd kv).
Proof.
  induction kvs as [| [k x] kvs IH]; intros Hd kv Hin; [destruct Hin |].
  simpl in Hd. apply andb_true_iff in Hd. destruct Hd as [Hk Hd].
  simpl. destruct Hin as [<- | Hin].
  - simpl. rewrite String.eqb_refl. reflexivity.
  - destruct (String.eqb_spec (fst kv) k) as [<- | Hne].
    + apply negb_true_iff in Hk.
      assert (mem (fst kv) (map fst kvs) = true) as Hm
        by (apply mem_in, in_map, Hin).
      congruence.
    + apply IH; assumption.
Qed.

Lemma Forall2_names {A B : Type} (f : A -> string) (g : B -> string)
      (R : A -> B -> Prop) (l1 : list A) (l2 : list B) :
  (forall a b, R a b -> f a = g b) ->
  Forall2 R l1 l2 -> map f l1 = map g l2.
Proof.
  intros HR H. induction H as [| a b l1' l2' Hab _ IH]; simpl;
    [| rewrite IH, (HR a b Hab)]; reflexivity.
Qed.

Lemma Forall2_in_r {A B : Type} (R Q : A -> B -> Prop)
      (l1 : list A) (l2 : list B) :
  Forall2 R l1 l2 ->
  (forall a b, In b l2 -> R a b -> Q a b) ->
  Forall2 Q l1 l2.
Proof.
  intros H. induction H as [| a b l1' l2' Hab _ IH]; intros HQ;
    constructor.
  - apply HQ; [left; reflexivity | exact Hab].
  - apply IH. intros a' b' Hin. apply HQ. right. exact Hin.
Qed.

Lemma stored_model (cls : string) (fs : list field) :
  forall kvs,
    conforms (BaseModel cls fs) (VDict kvs) = true ->
    json_safe (BaseModel cls fs) (VDict kvs) = true ->
    Forall2 (fun f kv => fname f = fst kv
                         /\ conforms (ftyp f) (snd kv) = true
                         /\ json_safe (ftyp f) (snd kv) = true)
            fs kvs.
Proof.
  induction fs as [| f fs IH]; intros [| kv kvs]; simpl;
    try discriminate; [constructor |].
  simpl in IH. rewrite !andb_true_iff, String.eqb_eq.
  intros [[H1 H2] H3] [H4 H5]. constructor; auto.
Qed.

Lemma validate_serialize :
  forall t, well_formed t = true ->
    forall v, conforms t v = true -> json_safe t v = true ->
      validate L t (serialize v) = Valid v.
Proof.
  induction t as [| b | b | | | | e | t IH | t IH | t IH | cls fs IH]
    using ftype_induction; intros Hwf v Hc Hp.
  - destruct v; try discriminate. reflexivity.
  - destruct v; try discriminate. simpl. apply in_bounds_valid. auto.
  - destruct v; try discriminate. simpl in Hp. simpl serialize.
    rewrite Hp. simpl. apply in_bounds_valid. auto.
  - destruct v; try discriminate. reflexivity.
  - destruct v; try discriminate. simpl in Hp. simpl. unfold as_datetime.
    rewrite DatetimeFacts.fromisoformat_isoformat by exact Hp.
    reflexivity.
  - simpl in Hp. rewrite (plain_serialize v Hp). reflexivity.
  - destruct v; try discriminate. simpl in Hc |- *.
    rewrite Hc. reflexivity.
  - destruct v as [| | | | | | xs |]; try discriminate.
    simpl in Hc, Hp. simpl.
    apply rmap_valid. exists xs. split; [| reflexivity].
    apply items_valid.
    induction xs as [| x xs IHxs]; [constructor |].
    simpl in Hc, Hp. apply andb_true_iff in Hc, Hp.
    destruct Hc as [Hc1 Hc2], Hp as [Hp1 Hp2].
    simpl. constructor; [apply IH; assumption | apply IHxs; assumption].
  - destruct v as [| | | | | | | kvs]; try discriminate.
    simpl in Hc, Hp. rewrite serialize_dict. simpl.
    apply rmap_valid. exists kvs. split; [| reflexivity].
    apply entries_valid.
    induction kvs as [| [k x] kvs IHkvs]; [constructor |].
    simpl in Hc, Hp. apply andb_true_iff in Hc, Hp.
    destruct Hc as [Hc1 Hc2], Hp as [Hp1 Hp2].
    simpl. constructor; [| apply IHkvs; assumption].
    simpl. split; [reflexivity | apply IH; assumption].
  - simpl in Hp.
    destruct v as [| | | f | | | |];
      [reflexivity | | | pose proof (stored_float_finite t f Hc Hp) as Hf
       | | | |]; simpl in Hc;
      match goal with
      | |- validate L (TOptional t) (serialize ?w) = _ =>
          pose proof (IH Hwf w Hc Hp) as H;
          destruct (serialize w) eqn:Hs;
          try exact H; simpl in Hs; try rewrite Hf in Hs; discriminate Hs
      end.
  - destruct v as [| | | | | | | kvs]; try discriminate.
    pose proof (stored_model cls fs kvs Hc Hp) as Hs. clear Hc Hp.
    apply well_formed_model in Hwf. destruct Hwf as [Hd Hwf].
    rewrite serialize_dict.
    change (construct L (BaseModel cls fs)
              (map (fun kv => (fst kv, serialize (snd kv))) kvs)
            = Valid (VDict kvs)).
    apply construct_valid. exists kvs. split; [reflexivity |].
    assert (map fname fs = map fst kvs) as Hnames
      by (apply (Forall2_names _ _ _ _ _ (fun a b H => proj1 H) Hs)).
    rewrite Hnames in Hd.
    assert (Forall2 (fun f kv =>
                       (fname f = fst kv
                        /\ conforms (ftyp f) (snd kv) = true
                        /\ json_safe (ftyp f) (snd kv) = true)
                       /\ validate L (ftyp f) (serialize (snd kv))
                          = Valid (snd kv)) fs kvs) as Hs'.
    { clear Hd Hnames.
      induction Hs as [| f kv fs' kvs' Hf _ IHs]; [constructor |].
      inversion IH as [| ? ? IHf IHfs]; subst.
      inversion Hwf as [| ? ? [_ Hwf_f] Hwf_fs]; subst.
      constructor; [| apply IHs; assumption].
      split; [exact Hf |]. apply IHf; tauto. }
    apply (Forall2_in_r _ _ _ _ Hs').
    intros f kv Hin [(Hname & _ & _) Hv].
    apply attribute_value_valid. split; [symmetry; exact Hname |]. left.
    exists (serialize (snd kv)). split; [| exact Hv].
    rewrite Hname.
    apply (get_distinct
             (map (fun kv => (fst kv, serialize (snd kv))) kvs)
             ltac:(rewrite map_map; exact Hd)
             (fst kv, serialize (snd kv))).
    apply (in_map (fun kv => (fst kv, serialize (snd kv)))) in Hin.
    exact Hin.
Qed.

(** A stored value is valid for its annotation and is stored as it is:
    an instance passed where its class is expected is taken unchanged. *)
Lemma validate_stored :
  forall t, well_formed t = true ->
    forall v, conforms t v = true -> validate L t v = Valid v.
Proof.
  induction t as [| b | b | | | | e | t IH | t IH | t IH | cls fs IH]
    using ftype_induction; intros Hwf v Hc.
  - destruct v; try discriminate. reflexivity.
  - destruct v; try discriminate. simpl. apply in_bounds_valid. auto.
  - destruct v; try discriminate. simpl. apply in_bounds_valid. auto.
  - destruct v; try discriminate. reflexivity.
  - destruct v; try discriminate. reflexivity.
  - reflexivity.
  - destruct v; try discriminate. simpl in Hc |- *.
    rewrite Hc. reflexivity.
  - destruct v as [| | | | | | xs |]; try discriminate.
    simpl in Hc. simpl.
    apply rmap_valid. exists xs. split; [| reflexivity].
    apply items_valid.
    induction xs as [| x xs IHxs]; [constructor |].
    simpl in Hc. apply andb_true_iff in Hc. destruct Hc as [Hc1 Hc2].
    constructor; [apply IH; assumption | apply IHxs; assumption].
  - destruct v as [| | | | | | | kvs]; try discriminate.
    simpl in Hc. simpl.
    apply rmap_valid. exists kvs. split; [| reflexivity].
    apply entries_valid.
    induction kvs as [| [k x] kvs IHkvs]; [constructor |].
    simpl in Hc. apply andb_true_iff in Hc. destruct Hc as [Hc1 Hc2].
    constructor; [| apply IHkvs; assumption].
    simpl. split; [reflexivity | apply IH; assumption].
  - destruct v; [reflexivity | ..]; simpl in Hc |- *;
      apply (IH Hwf); exact Hc.
  - destruct v as [| | | | | | | kvs]; try discriminate.
    apply conforms_model in Hc.
    apply well_formed_model in Hwf. destruct Hwf as [Hd Hwf].
    change (construct L (BaseModel cls fs) kvs = Valid (VDict kvs)).
    apply construct_valid. exists kvs. split; [reflexivity |].
    assert (map fname fs = map fst kvs) as Hnames
      by (apply (Forall2_names _ _ _ _ _ (fun a b H => proj1 H) Hc)).
    rewrite Hnames in Hd.
    assert (Forall2 (fun f kv =>
                       fname f = fst kv
                       /\ validate L (ftyp f) (snd kv) = Valid (snd kv))
                    fs kvs) as Hs.
    { clear Hd Hnames.
      induction Hc as [| f kv fs' kvs' [Hn Hf] _ IHs]; [constructor |].
      inversion IH as [| ? ? IHf IHfs]; subst.
      inversion Hwf as [| ? ? [_ Hwf_f] Hwf_fs]; subst.
      constructor; [| apply IHs; assumption].
      split; [exact Hn | apply IHf; assumption]. }
    apply (Forall2_in_r _ _ _ _ Hs).
    intros f kv Hin [Hname Hv].
    apply attribute_value_valid. split; [symmetry; exact Hname |]. left.
    exists (snd kv). split; [| exact Hv].
    rewrite Hname. apply (get_distinct kvs Hd kv Hin).
Qed.

(** A valid input is stored as a value that, written to the wire and
    read back, is stored unchanged. *)
Lemma roundtrip (t : ftype) (x v : value) :
  well_formed t = true ->
  validate L t x = Valid v ->
  json_safe t v = true ->
  validate L t (serialize v) = Valid v.
Proof.
  intros Hwf Hv Hp. apply validate_serialize; try assumption.
  apply (validate_conforms t Hwf x v Hv).
Qed.

End Generic.
End ValidationFacts.

Import ValidationFacts.

(* ================================================================= *)
(** ** Facts about constructor calls, for any class *)

Module RecordFacts.

Section Records.

Variable L : lax.

Lemma is_valid_both {A B C : Type} (f : A -> B -> C)
      (r1 : result A) (r2 : result B) :
  is_valid (both f r1 r2) = is_valid r1 && is_valid r2.
Proof. destruct r1, r2; reflexivity. Qed.

Lemma is_valid_rmap {A B : Type} (f : A -> B) (r : result A) :
  is_valid (rmap f r) = is_valid r.
Proof. destruct r; reflexivity. Qed.

Lemma is_valid_at_loc {A : Type} (i : loc_item) (r : result A) :
  is_valid (at_loc i r) = is_valid r.
Proof. destruct r; reflexivity. Qed.

Lemma violations_both {A B C : Type} (f : A -> B -> C)
      (r1 : result A) (r2 : result B) :
  violations (both f r1 r2) = (violations r1 ++ violations r2)%list.
Proof.
  destruct r1, r2; simpl; try reflexivity.
  symmetry. apply app_nil_r.
Qed.

Lemma violations_rmap {A B : Type} (f : A -> B) (r : result A) :
  violations (rmap f r) = violations r.
Proof. destruct r; reflexivity. Qed.

Lemma is_valid_true {A : Type} (r : result A) :
  is_valid r = true <-> exists a, r = Valid a.
Proof.
  destruct r as [a | es]; simpl; split; eauto; try discriminate.
  intros [a H]. discriminate.
Qed.

Lemma is_valid_attribute (v : value -> result value) (name : string)
      (d : option value) (kwargs : list (string * value)) :
  is_valid (attribute_value v name d kwargs)
  = match get name kwargs with
    | Some x => is_valid (v x)
    | None => match d with Some _ => true | None => false end
    end.
Proof.
  unfold attribute_value. destruct (get name kwargs).
  - rewrite is_valid_rmap, is_valid_at_loc. reflexivity.
  - destruct d; reflexivity.
Qed.

(** A constructor call is accepted exactly when every attribute is. *)
Lemma accepts_attributes (cls : string) (fs : list field)
      (kwargs : list (string * value)) :
  accepts L (BaseModel cls fs) kwargs
  = forallb (fun f => is_valid (attribute_value (validate L (ftyp f))
                                  (fname f) (fdefault f) kwargs)) fs.
Proof.
  unfold accepts, construct. rewrite validate_model, is_valid_rmap.
  induction fs as [| f fs IH]; [reflexivity |].
  simpl. rewrite is_valid_both. f_equal. exact IH.
Qed.

Lemma get_put_same (k : string) (x : value)
      (kwargs : list (string * value)) :
  get k (put k x kwargs) = Some x.
Proof. simpl. rewrite String.eqb_refl. reflexivity. Qed.

Lemma get_put_other (k k' : string) (x : value)
      (kwargs : list (string * value)) :
  k' <> k -> get k' (put k x kwargs) = get k' kwargs.
Proof.
  intros Hne. simpl.
  destruct (String.eqb_spec k' k) as [-> | _]; [contradiction |].
  induction kwargs as [| [k0 x0] kwargs IH]; [reflexivity |].
  simpl. destruct (String.eqb_spec k k0) as [<- | Hk]; simpl.
  - destruct (String.eqb_spec k' k) as [-> | _]; [contradiction |].
    exact IH.
  - destruct (String.eqb k' k0); [reflexivity | exact IH].
Qed.

Lemma distinct_names (fs : list field) (f g : field) :
  distinct (map fname fs) = true ->
  In f fs -> In g fs -> fname f = fname g -> f = g.
Proof.
  induction fs as [| h fs IH]; intros Hd Hf Hg Hn; [destruct Hf |].
  simpl in Hd. apply andb_true_iff in Hd. destruct Hd as [Hh Hd].
  apply negb_true_iff in Hh.
  assert (forall a, In a fs -> fname a <> fname h) as Hfresh.
  { intros a Ha He.
    assert (mem (fname h) (map fname fs) = true) as Hm
      by (apply mem_in; rewrite <- He; apply in_map, Ha).
    congruence. }
  destruct Hf as [<- | Hf], Hg as [<- | Hg]; auto.
  - exfalso. apply (Hfresh g Hg). congruence.
  - exfalso. apply (Hfresh f Hf). congruence.
Qed.

(** Setting one argument of an accepted call: the call is accepted
    exactly when the new argument is valid for its attribute. *)
Lemma accepts_put (cls : string) (fs : list field) (f : field)
      (kwargs : list (string * value)) (x : value) :
  distinct (map fname fs) = true ->
  In f fs ->
  accepts L (BaseModel cls fs) kwargs = true ->
  accepts L (BaseModel cls fs) (put (fname f) x kwargs)
  = is_valid (validate L (ftyp f) x).
Proof.
  intros Hd Hf Hacc. rewrite accepts_attributes in Hacc |- *.
  assert (forall g, In g fs -> g <> f ->
            is_valid (attribute_value (validate L (ftyp g)) (fname g)
                        (fdefault g) (put (fname f) x kwargs)) = true)
    as Hother.
  { intros g Hg Hne.
    rewrite forallb_forall in Hacc. specialize (Hacc g Hg).
    rewrite is_valid_attribute in Hacc |- *.
    rewrite get_put_other; [exact Hacc |].
    intros He. apply Hne. apply (distinct_names fs); auto. }
  assert (is_valid (attribute_value (validate L (ftyp f)) (fname f)
                      (fdefault f) (put (fname f) x kwargs))
          = is_valid (validate L (ftyp f) x)) as Hself.
  { rewrite is_valid_attribute, get_put_same. reflexivity. }
  destruct (is_valid (validate L (ftyp f) x)) eqn:Hx.
  - apply forallb_forall. intros g Hg.
    destruct (String.eqb_spec (fname g) (fname f)) as [He | Hne].
    + rewrite (distinct_names fs g f Hd Hg Hf He). exact Hself.
    + apply Hother; [exact Hg | congruence].
  - match goal with |- ?b = false => destruct b eqn:Hall end;
      [| reflexivity].
    rewrite forallb_forall in Hall. rewrite (Hall f Hf) in Hself.
    discriminate.
Qed.

(** What an instance stores under an attribute name conforms to the
    annotation of that attribute. *)
Lemma stored_attribute (cls : string) (fs : list field) (f : field)
      (kwargs : list (string * value)) (v : value) :
  construct L (BaseModel cls fs) kwargs = Valid v ->
  well_formed (BaseModel cls fs) = true ->
  In f fs ->
  exists y, attr (fname f) v = Some y /\ conforms (ftyp f) y = true.
Proof.
  intros Hv Hwf Hf.
  pose proof (validate_conforms L _ Hwf _ _ Hv) as Hc.
  apply well_formed_model in Hwf. destruct Hwf as [Hd _].
  destruct v as [| | | | | | | kvs]; try discriminate.
  apply conforms_model in Hc.
  assert (map fname fs = map fst kvs) as Hnames
    by (apply (Forall2_names _ _ _ _ _ (fun a b H => proj1 H) Hc)).
  rewrite Hnames in Hd. simpl.
  clear Hnames Hv. induction Hc as [| g kv fs' kvs' [Hn Hg] Hrest IH];
    [destruct Hf |].
  simpl in Hd. apply andb_true_iff in Hd. destruct Hd as [Hfresh Hd].
  destruct kv as [k y]; simpl in *. subst k.
  destruct Hf as [-> | Hf].
  - exists y. rewrite String.eqb_refl. auto.
  - destruct (IH Hd Hf) as (y' & Hy' & Hcy').
    exists y'. split; [| exact Hcy'].
    destruct (String.eqb_spec (fname f) (fname g)) as [He | _];
      [| exact Hy'].
    exfalso. apply negb_true_iff in Hfresh.
    assert (mem (fname g) (map fst kvs') = true) as Hm.
    { apply mem_in. rewrite <- He.
      clear -Hy'. induction kvs' as [| [k0 y0] kvs' IHk];
        [discriminate |].
      simpl in Hy' |- *.
      destruct (String.eqb_spec (fname f) k0) as [-> | _]; auto. }
    congruence.
Qed.

(** An argument that is not valid for its attribute makes the call
    fail, whatever the other arguments. *)
Lemma rejects_put (cls : string) (fs : list field) (f : field)
      (kwargs : list (string * value)) (x : value) :
  In f fs ->
  is_valid (validate L (ftyp f) x) = false ->
  accepts L (BaseModel cls fs) (put (fname f) x kwargs) = false.
Proof.
  intros Hf Hx. rewrite accepts_attributes.
  match goal with |- ?b = false => destruct b eqn:Hall end;
    [| reflexivity].
  rewrite forallb_forall in Hall. specialize (Hall f Hf).
  rewrite is_valid_attribute, get_put_same in Hall. congruence.
Qed.

(** A violation of one attribute is a violation of the instance. *)
Lemma attribute_violations (cls : string) (fs : list field) (f : field)
      (kwargs : list (string * value)) (e : violation) :
  In f fs ->
  In e (violations (attribute_value (validate L (ftyp f)) (fname f)
                                    (fdefault f) kwargs)) ->
  In e (violations (construct L (BaseModel cls fs) kwargs))
  /\ is_valid (construct L (BaseModel cls fs) kwargs) = false.
Proof.
  intros Hf He. unfold construct. rewrite validate_model.
  rewrite is_valid_rmap, violations_rmap.
  induction fs as [| g fs IH]; [destruct Hf |].
  simpl. rewrite violations_both, is_valid_both, in_app_iff.
  destruct Hf as [-> | Hf].
  - split; [left; exact He |].
    destruct (attribute_value _ _ _ _); [destruct He | reflexivity].
  - destruct (IH Hf) as [H1 H2]. split; [right; exact H1 |].
    rewrite H2. apply andb_false_r.
Qed.

(** The entry of an attribute in a list of entries that follows the
    declaration order. *)
Lemma get_declared (R : field -> value -> Prop) (fs : list field)
      (kvs : list (string * value)) (f : field) :
  Forall2 (fun g kv => fst kv = fname g /\ R g (snd kv)) fs kvs ->
  distinct (map fname fs) = true ->
  In f fs ->
  exists y, get (fname f) kvs = Some y /\ R f y.
Proof.
  intros H. induction H as [| g [k y] fs' kvs' [Hn Hg] Hrest IH];
    intros Hd Hf; [destruct Hf |].
  simpl in Hn, Hg, Hd. subst k.
  apply andb_true_iff in Hd. destruct Hd as [Hfresh Hd].
  destruct Hf as [-> | Hf].
  - exists y. simpl. rewrite String.eqb_refl. auto.
  - destruct (IH Hd Hf) as (y' & Hy' & HR).
    exists y'. split; [| exact HR]. simpl.
    destruct (String.eqb_spec (fname f) (fname g)) as [He | _];
      [| exact Hy'].
    exfalso. apply negb_true_iff in Hfresh.
    assert (mem (fname g) (map fname fs') = true) as Hm
      by (apply mem_in; rewrite <- He; apply in_map, Hf).
    congruence.
Qed.

(** What an instance stores under an attribute name: the validated
    argument of that name, or the default without such an
    argument. *)
Lemma stored_argument (cls : string) (fs : list field) (f : field)
      (kwargs : list (string * value)) (v : value) :
  construct L (BaseModel cls fs) kwargs = Valid v ->
  distinct (map fname fs) = true ->
  In f fs ->
  exists y, attr (fname f) v = Some y
            /\ match get (fname f) kwargs with
               | Some x => validate L (ftyp f) x = Valid y
               | None => fdefault f = Some y
               end.
Proof.
  intros Hv Hd Hf. apply construct_valid in Hv.
  destruct Hv as (kvs & -> & Hkvs). simpl.
  apply (get_declared
           (fun g y => match get (fname g) kwargs with
                       | Some x => validate L (ftyp g) x = Valid y
                       | None => fdefault g = Some y
                       end) fs kvs f); try assumption.
  clear Hd Hf. induction Hkvs as [| g kv fs' kvs' Hg _ IH];
    constructor; [| exact IH].
  apply attribute_value_valid in Hg.
  destruct Hg as [Hn [(x & Hx & Hy) | [Hx Hy]]]; rewrite Hx; auto.
Qed.
End Records.
End RecordFacts.

Import RecordFacts.

(* ================================================================= *)
(** ** Facts about the declarations of the module *)

Module RegistryFacts.

(** Every class of the module is well formed. *)
Lemma registry_well_formed : forallb well_formed registry = true.
Proof. vm_compute. reflexivity. Qed.

(** [Cls()] for the classes used as defaults: the instance built from
    the defaults alone is the one a call without arguments returns. *)
Lemma construct_no_args (L : lax) :
  Forall (fun t => construct L t [] = Valid (no_args t))
         [NotificationSettings; UserPreferences; LearningContext;
          SessionContext].
Proof. repeat constructor. Qed.

(** The float literals of the source and of the scenarios denote the
    nearest binary64 numbers. *)
Lemma literals_nearest :
  nearest 0 1 f0_0 = true /\ nearest 1 1 f1_0 = true
  /\ nearest 7 10 f0_7 = true /\ nearest 85 100 f0_85 = true
  /\ nearest 3 2 f1_5 = true /\ nearest 3 1 f3_0 = true
  /\ nearest (-1) 10000 fm0_0001 = true
  /\ nearest 10001 10000 f1_0001 = true.
Proof. repeat split; reflexivity. Qed.

(** The unit interval on binary64 numbers: both zeros, and the positive
    numbers [m * 2^e] with [e < -52], or [e = -52] and [m <= 2^52]; no
    negative number, no infinity, no NaN. *)
Lemma unit_range_cases (x : float) :
  unit_range x
  = match x with
    | S754_zero _ => true
    | S754_finite false m e =>
        (e <? -52) || ((e =? -52) && (Z.pos m <=? 4503599627370496))
    | _ => false
    end.
Proof.
  destruct x as [s | s | | s m e]; try (destruct s; reflexivity);
    try reflexivity.
  destruct s; [reflexivity |].
  assert (unit_range (S754_finite false m e)
          = match e ?= -52 with
            | Lt => true
            | Gt => false
            | Eq => match (m ?= 4503599627370496)%positive with
                    | Gt => false
                    | _ => true
                    end
            end) as ->.
  { unfold unit_range, SFleb, SFcompare, f0_0, f1_0, Pos.compare.
    destruct (e ?= -52); reflexivity. }
  destruct (Z.compare_spec e (-52)) as [-> | Hlt | Hgt].
  - rewrite Z.ltb_irrefl, Z.eqb_refl. cbn [orb andb].
    unfold Z.leb.
    change (Z.pos m ?= 4503599627370496)
      with (m ?= 4503599627370496)%positive.
    reflexivity.
  - rewrite (proj2 (Z.ltb_lt e (-52)) Hlt). reflexivity.
  - rewrite (proj2 (Z.ltb_ge e (-52))) by lia.
    rewrite (proj2 (Z.eqb_neq e (-52))) by lia. reflexivity.
Qed.

(** On a normal binary64 number (53 significant bits) this is the
    order of the rationals: [m * 2^e <= 1]. *)
Lemma unit_range_normal (m : positive) (e : Z) :
  2 ^ 52 <= Z.pos m < 2 ^ 53 ->
  unit_range (S754_finite false m e) = true
  <-> e < 0 /\ Z.pos m <= 2 ^ (- e).
Proof.
  intros Hm. rewrite unit_range_cases.
  rewrite orb_true_iff, andb_true_iff, Z.ltb_lt, Z.eqb_eq, Z.leb_le.
  change 4503599627370496 with (2 ^ 52).
  split.
  - intros [Hlt | [-> Hle]].
    + split; [lia |].
      assert (2 ^ 53 <= 2 ^ (- e)) by (apply Z.pow_le_mono_r; lia). lia.
    + split; [lia | exact Hle].
  - intros [He Hle].
    destruct (Z.lt_trichotomy e (-52)) as [Hlt | [-> | Hgt]]; auto.
    exfalso.
    assert (2 ^ (- e) <= 2 ^ 51) by (apply Z.pow_le_mono_r; lia).
    assert (2 ^ 51 < 2 ^ 52) by (apply Z.pow_lt_mono_r; lia). lia.
Qed.

(** A float under [Field(ge=0.0, le=1.0)] is valid exactly when it lies
    within the unit interval. *)
Lemma unit_interval_valid (L : lax) (x : float) :
  is_valid (validate L (TFloat unit_interval) (VFloat x)) = unit_range x.
Proof.
  simpl. unfold in_bounds, unit_range. simpl.
  destruct (SFleb x f1_0), (SFleb f0_0 x); reflexivity.
Qed.

Lemma unit_interval_conforms (y : value) :
  conforms (TFloat unit_interval) y = true ->
  exists x, y = VFloat x /\ unit_range x = true.
Proof.
  destruct y as [| | | x | | | |]; try discriminate.
  simpl. unfold within, unit_range. simpl. rewrite andb_comm. eauto.
Qed.

Lemma one_to_five_valid (L : lax) (z : Z) :
  is_valid (validate L (TInt one_to_five) (VInt z)) = rating_range z.
Proof.
  simpl. unfold in_bounds, rating_range. simpl.
  destruct (z <=? 5), (1 <=? z); reflexivity.
Qed.

Lemma one_to_five_decides (L : lax) (x : value) :
  is_valid (validate L (TInt one_to_five) x) = denotes_rating L x.
Proof.
  unfold denotes_rating. cbn [validate].
  destruct (as_int L x) as [z |]; [| reflexivity].
  unfold in_bounds, rating_range. simpl.
  destruct (z <=? 5), (1 <=? z); reflexivity.
Qed.

Lemma one_to_five_conforms (y : value) :
  conforms (TInt one_to_five) y = true ->
  exists z, y = VInt z /\ rating_range z = true.
Proof.
  destruct y as [| | z | | | | |]; try discriminate.
  simpl. unfold within, rating_range. simpl. rewrite andb_comm. eauto.
Qed.

(** A list of [Any] items is valid as it is. *)
Lemma items_any (xs : list value) :
  forall i, items (fun x => Valid x) i xs = Valid xs.
Proof.
  induction xs as [| x xs IH]; intros i; [reflexivity |].
  simpl. rewrite IH. reflexivity.
Qed.

Lemma enum_validate (L : lax) (e : enum) (s : string) :
  validate L (TEnum e) (VStr s)
  = if mem s (values e) then Valid (VStr s)
    else Invalid [Violation [] (VStr s) (IsMember e)].
Proof. reflexivity. Qed.

End RegistryFacts.

Import RegistryFacts.

(** Case analysis over a finite list of attributes. *)

Ltac class_field :=
  match goal with
  | H : In _ _ |- _ =>
      simpl in H;
      repeat (destruct H as [H | H]; [injection H as <- <- |]);
      [.. | destruct H]
  end.

Ltac named_field :=
  match goal with
  | H : In _ _ |- _ =>
      simpl in H;
      repeat (destruct H as [H | H]; [subst |]);
      [.. | destruct H]
  end.

(* ================================================================= *)
(** ** Properties of the registry *)

(** C1: the score, confidence and relevance attributes
    (SkillLevel.confidence, SearchResult.relevance_score,
    SkillAssessment.confidence_score) are declared with
    Field(ge=0.0, le=1.0); 0.0 and 1.0 are accepted, -0.0001 and 1.0001
    are rejected; a float argument is accepted exactly when it lies
    within [0.0, 1.0], and whatever the arguments, a construction that
    succeeds stores a float within [0.0, 1.0]. *)
Theorem score_fields_within_unit_interval (L : lax) :
  (forall t name, In (t, name) score_fields ->
     declares t name (TFloat unit_interval))
  /\ map (fun x => accepts L SkillLevel (skill_level_args (VFloat x)))
         [f0_0; f1_0; fm0_0001; f1_0001] = [true; true; false; false]
  /\ map (fun x => accepts L SearchResult (search_result_args (VFloat x)))
         [f0_0; f1_0; fm0_0001; f1_0001] = [true; true; false; false]
  /\ map (fun x => accepts L SkillAssessment (skill_assessment_args (VFloat x)))
         [f0_0; f1_0; fm0_0001; f1_0001] = [true; true; false; false]
  /\ nearest (-1) 10000 fm0_0001 = true
  /\ nearest 10001 10000 f1_0001 = true
  /\ (forall t name, In (t, name) score_fields ->
        forall kwargs x,
          accepts L t kwargs = true ->
          accepts L t (put name (VFloat x) kwargs) = unit_range x)
  /\ (forall t name, In (t, name) score_fields ->
        forall kwargs v,
          construct L t kwargs = Valid v ->
          exists x, attr name v = Some (VFloat x) /\ unit_range x = true).
Proof.
  split; [| split; [| split; [| split; [| split; [| split; [| split]]]]]].
  - intros t name H. class_field; unfold declares; simpl; tauto.
  - reflexivity.
  - reflexivity.
  - reflexivity.
  - reflexivity.
  - reflexivity.
  - intros t name H kwargs x Hacc.
    rewrite <- (unit_interval_valid L x).
    class_field;
      match goal with
      | |- accepts L _ (put ?n _ _) = _ =>
          apply (accepts_put L _ _ (required n (TFloat unit_interval)));
          [reflexivity | simpl; tauto | exact Hacc]
      end.
  - intros t name H kwargs v Hv.
    assert (exists y, attr name v = Some y
                      /\ conforms (TFloat unit_interval) y = true) as Hy.
    { class_field;
        match goal with
        | |- exists y, attr ?n _ = _ /\ _ =>
            refine (stored_attribute L _ _
                      (required n (TFloat unit_interval)) kwargs v Hv _ _);
            [reflexivity | simpl; tauto]
        end. }
    destruct Hy as (y & Hy & Hc).
    apply unit_interval_conforms in Hc. destruct Hc as (x & -> & Hx). eauto.
Qed.

(** C1 at SkillLevel: 1.0001 set as the confidence of valid arguments
    is rejected. *)
Lemma score_fields_witness :
  accepts pydantic_lax SkillLevel
    (put "confidence" (VFloat f1_0001) (skill_level_args (VFloat f0_85)))
  = false.
Proof.
  exact (proj1 (proj2 (proj2 (proj2 (proj2 (proj2 (proj2
           (score_fields_within_unit_interval pydantic_lax)))))))
           SkillLevel "confidence" (or_introl eq_refl)
           (skill_level_args (VFloat f0_85)) f1_0001 eq_refl).
Defined.

(** C2, as the code has it: the rating attributes of UserFeedback are
    declared with Field(ge=1, le=5); an argument is accepted exactly
    when it denotes one of the integers 1, 2, 3, 4, 5, as an [int] or as
    a value the library converts to one, and a construction that
    succeeds stores that integer.  Every other argument is rejected,
    whatever the other arguments are: an integer outside [1,5], a value
    converted to such an integer (the string "6", the float 6.0) and a
    value without integer conversion (None, a list, "abc").  A
    non-integer argument is not rejected as such: the string "3" and
    the float 3.0 are converted to the integer 3 and accepted. *)
Theorem rating_fields_one_to_five (L : lax) :
  (forall name, In name rating_fields ->
     declares UserFeedback name (TInt one_to_five))
  /\ map (fun z => accepts L UserFeedback
                     (feedback_args (VInt z) (VInt 3) (VInt 4)))
         [0; 1; 2; 3; 4; 5; 6]
     = [false; true; true; true; true; true; false]
  /\ (forall name, In name rating_fields ->
        forall kwargs z,
          accepts L UserFeedback kwargs = true ->
          accepts L UserFeedback (put name (VInt z) kwargs) = rating_range z)
  /\ (forall name, In name rating_fields ->
        forall kwargs v,
          construct L UserFeedback kwargs = Valid v ->
          exists z, attr name v = Some (VInt z) /\ rating_range z = true)
  /\ construct pydantic_lax UserFeedback
       (feedback_args (VStr "3") (VFloat f3_0) (VInt 4))
     = Valid (feedback_stored 3 3 4)
  /\ (forall name, In name rating_fields ->
        forall kwargs x,
          accepts L UserFeedback kwargs = true ->
          accepts L UserFeedback (put name x kwargs) = denotes_rating L x)
  /\ (forall name, In name rating_fields ->
        forall kwargs x,
          denotes_rating L x = false ->
          accepts L UserFeedback (put name x kwargs) = false)
  /\ (forall name, In name rating_fields ->
        forall kwargs x v,
          construct L UserFeedback (put name x kwargs) = Valid v ->
          exists z, as_int L x = Some z /\ rating_range z = true
                    /\ attr name v = Some (VInt z))
  /\ map (fun x => accepts pydantic_lax UserFeedback
                     (feedback_args x (VInt 3) (VInt 4)))
         [VStr "3"; VFloat f3_0; VStr "6"; VFloat f6_0; VNone; VList [];
          VStr "abc"]
     = [true; true; false; false; false; false; false].
Proof.
  split; [| split; [| split; [| split; [| split; [| split;
    [| split; [| split]]]]]]].
  - intros name H. named_field; unfold declares; simpl; tauto.
  - reflexivity.
  - intros name H kwargs z Hacc.
    rewrite <- (one_to_five_valid L z).
    named_field;
      match goal with
      | |- accepts L _ (put ?n _ _) = _ =>
          apply (accepts_put L _ _ (required n (TInt one_to_five)));
          [reflexivity | simpl; tauto | exact Hacc]
      end.
  - intros name H kwargs v Hv.
    assert (exists y, attr name v = Some y
                      /\ conforms (TInt one_to_five) y = true) as Hy.
    { named_field;
        match goal with
        | |- exists y, attr ?n _ = _ /\ _ =>
            refine (stored_attribute L _ _
                      (required n (TInt one_to_five)) kwargs v Hv _ _);
            [reflexivity | simpl; tauto]
        end. }
    destruct Hy as (y & Hy & Hc).
    apply one_to_five_conforms in Hc. destruct Hc as (z & -> & Hz). eauto.
  - reflexivity.
  - intros name H kwargs x Hacc.
    rewrite <- (one_to_five_decides L x).
    named_field;
      match goal with
      | |- accepts L _ (put ?n _ _) = _ =>
          apply (accepts_put L _ _ (required n (TInt one_to_five)));
          [reflexivity | simpl; tauto | exact Hacc]
      end.
  - intros name H kwargs x Hx.
    rewrite <- (one_to_five_decides L x) in Hx.
    named_field;
      match goal with
      | |- accepts L _ (put ?n _ _) = _ =>
          apply (rejects_put L _ _ (required n (TInt one_to_five)));
          [simpl; tauto | exact Hx]
      end.
  - intros name H kwargs x v Hv.
    assert (exists y, attr name v = Some y
                      /\ validate L (TInt one_to_five) x = Valid y) as Hy.
    { named_field;
        match type of Hv with
        | construct L _ (put ?n _ _) = _ =>
            destruct (stored_argument L _ _
                        (required n (TInt one_to_five))
                        _ v Hv eq_refl ltac:(simpl; tauto))
              as (y & Hy & Hx);
            cbn [fname ftyp required] in Hx;
            rewrite get_put_same in Hx; eauto
        end. }
    destruct Hy as (y & Hy & Hx).
    assert (denotes_rating L x = true) as Hr
      by (rewrite <- one_to_five_decides, Hx; reflexivity).
    unfold denotes_rating in Hr. cbn [validate] in Hx.
    destruct (as_int L x) as [z |]; [| discriminate Hr].
    exists z. split; [reflexivity | split; [exact Hr |]].
    unfold in_bounds in Hx. cbn [le ge one_to_five] in Hx.
    destruct (z <=? 5); [| discriminate Hx].
    destruct (1 <=? z); [| discriminate Hx].
    injection Hx as <-. exact Hy.
  - reflexivity.
Qed.

(** C2 at clarity_rating: 6 set as the clarity rating of valid
    arguments is rejected. *)
Lemma rating_fields_witness :
  accepts pydantic_lax UserFeedback
    (put "clarity_rating" (VInt 6) (feedback_args (VInt 1) (VInt 3) (VInt 4)))
  = false.
Proof.
  exact (proj1 (proj2 (proj2 (rating_fields_one_to_five pydantic_lax)))
           "clarity_rating" (or_intror (or_introl eq_refl))
           (feedback_args (VInt 1) (VInt 3) (VInt 4)) 6 eq_refl).
Defined.

(** C2 as stated fails: the string "3" is not an integer, and the float
    3.0 is not of type int, yet UserFeedback accepts them as ratings. *)
Lemma rating_non_integer_accepted :
  accepts pydantic_lax UserFeedback
    (feedback_args (VStr "3") (VInt 3) (VInt 4)) = true
  /\ accepts pydantic_lax UserFeedback
       (feedback_args (VInt 3) (VFloat f3_0) (VInt 4)) = true.
Proof. split; reflexivity. Qed.

(** C3, as the code has it: the duration attributes carry no bound.
    LearningResource.estimated_time, Milestone.estimated_time and
    ProgressMetrics.time_spent are plain [int], and
    LearningInteraction.processing_time is a plain [float]: every
    integer (every float), negative ones included, is accepted and
    stored unchanged. *)
Theorem duration_fields_unbounded (L : lax) :
  (forall t name, In (t, name) duration_fields ->
     declares t name (TInt unbounded))
  /\ declares LearningInteraction "processing_time" (TFloat unbounded)
  /\ (forall t name, In (t, name) duration_fields ->
        forall kwargs z,
          accepts L t kwargs = true ->
          accepts L t (put name (VInt z) kwargs) = true)
  /\ (forall kwargs x,
        accepts L LearningInteraction kwargs = true ->
        accepts L LearningInteraction
                (put "processing_time" (VFloat x) kwargs) = true)
  /\ (forall t name, In (t, name) duration_fields ->
        forall kwargs z v,
          construct L t (put name (VInt z) kwargs) = Valid v ->
          attr name v = Some (VInt z))
  /\ (forall kwargs x v,
        construct L LearningInteraction
                  (put "processing_time" (VFloat x) kwargs) = Valid v ->
        attr "processing_time" v = Some (VFloat x)).
Proof.
  split; [| split; [| split; [| split; [| split]]]].
  - intros t name H. class_field; unfold declares; simpl; tauto.
  - unfold declares; simpl; tauto.
  - intros t name H kwargs z Hacc.
    class_field;
      match goal with
      | |- accepts L _ (put ?n _ _) = _ =>
          apply (accepts_put L _ _ (required n (TInt unbounded)));
          [reflexivity | simpl; tauto | exact Hacc]
      end.
  - intros kwargs x Hacc.
    apply (accepts_put L _ _ (required "processing_time" (TFloat unbounded)));
      [reflexivity | simpl; tauto | exact Hacc].
  - intros t name H kwargs z v Hv.
    class_field;
      match type of Hv with
      | construct L _ (put ?n _ _) = _ =>
          destruct (stored_argument L _ _ (required n (TInt unbounded))
                                    _ v Hv eq_refl ltac:(simpl; tauto))
            as (y & Hy & Hx);
          simpl fname in Hx; rewrite get_put_same in Hx;
          injection Hx as <-; exact Hy
      end.
  - intros kwargs x v Hv.
    destruct (stored_argument L _ _
                (required "processing_time" (TFloat unbounded))
                _ v Hv eq_refl ltac:(simpl; tauto)) as (y & Hy & Hx).
    simpl fname in Hx. rewrite get_put_same in Hx.
    injection Hx as <-. exact Hy.
Qed.

(** C3 at Milestone: -3 hours set as the estimated time of valid
    arguments is accepted. *)
Lemma duration_fields_witness :
  accepts pydantic_lax Milestone
    (put "estimated_time" (VInt (-3)) (milestone_args (VInt 2))) = true.
Proof.
  exact (proj1 (proj2 (proj2 (duration_fields_unbounded pydantic_lax)))
           Milestone "estimated_time" (or_intror (or_introl eq_refl))
           (milestone_args (VInt 2)) (-3) eq_refl).
Defined.

(** C3 as stated fails: negative durations are accepted. *)
Lemma negative_duration_accepted :
  accepts pydantic_lax LearningResource
    (resource_args (VStr "article") (VInt (-5))) = true
  /\ accepts pydantic_lax Milestone (milestone_args (VInt (-5))) = true
  /\ accepts pydantic_lax LearningInteraction
       (interaction_args (VFloat fm0_0001)) = true
  /\ accepts pydantic_lax ProgressMetrics (progress_args (VInt (-5))) = true.
Proof. repeat split; reflexivity. Qed.

(** C4 on the code: ExpertiseLevel.domain_expertise is declared
    Dict[str, float] without bounds, so an expertise score outside
    [0.0, 1.0] (here 1.5, and likewise any float) is accepted and stored
    unchanged, although the comment of the attribute gives the range
    0-1. *)
Theorem expertise_score_unchecked (L : lax) :
  declares ExpertiseLevel "overall_level" (TEnum DifficultyLevel)
  /\ In (defaulted "domain_expertise" (TDict (TFloat unbounded)) (VDict []))
        (attributes_of ExpertiseLevel)
  /\ unit_range f1_5 = false
  /\ construct L ExpertiseLevel (expertise_args (VFloat f1_5))
     = Valid (VDict (expertise_args (VFloat f1_5)))
  /\ (forall x, construct L ExpertiseLevel (expertise_args (VFloat x))
                = Valid (VDict (expertise_args (VFloat x)))).
Proof.
  unfold declares. simpl. repeat split; auto.
Qed.

(** C5: an enumerated attribute accepts exactly the declared literals,
    compared as strings (so case matters), and stores them unchanged; a
    string outside them ("expert" for DifficultyLevel) is a violation
    located at that attribute, the construction fails, and no default
    is substituted, also when the attribute has one. *)
Theorem enum_fields_exact (L : lax) :
  (values DifficultyLevel = ["beginner"; "intermediate"; "advanced"]
   /\ values ExplanationStyle = ["detailed"; "concise"; "example-heavy"]
   /\ values InteractionType
      = ["concept_explanation"; "code_analysis"; "debugging_help"]
   /\ values DocumentType
      = ["tutorial"; "documentation"; "example"; "reference"]
   /\ values IssueType = ["error"; "warning"; "suggestion"]
   /\ values IssueSeverity = ["low"; "medium"; "high"])
  /\ (forall e s,
        validate L (TEnum e) (VStr s)
        = if mem s (values e) then Valid (VStr s)
          else Invalid [Violation [] (VStr s) (IsMember e)])
  /\ (forall e s,
        is_valid (validate L (TEnum e) (VStr s)) = true <-> In s (values e))
  /\ (forall cls fs f e kwargs s,
        In f fs -> ftyp f = TEnum e ->
        get (fname f) kwargs = Some (VStr s) ->
        ~ In s (values e) ->
        accepts L (BaseModel cls fs) kwargs = false
        /\ In (Violation [Name (fname f)] (VStr s) (IsMember e))
              (violations (construct L (BaseModel cls fs) kwargs)))
  /\ construct L SkillLevel
       (put "level" (VStr "expert") (skill_level_args (VFloat f0_85)))
     = Invalid [Violation [Name "level"] (VStr "expert")
                          (IsMember DifficultyLevel)]
  /\ construct L SkillLevel
       (put "level" (VStr "Advanced") (skill_level_args (VFloat f0_85)))
     = Invalid [Violation [Name "level"] (VStr "Advanced")
                          (IsMember DifficultyLevel)]
  /\ construct L UserPreferences [("explanation_style", VStr "verbose")]
     = Invalid [Violation [Name "explanation_style"] (VStr "verbose")
                          (IsMember ExplanationStyle)].
Proof.
  split; [repeat split | split; [| split; [| split; [| repeat split]]]].
  - intros e s. reflexivity.
  - intros e s. rewrite enum_validate, <- mem_in.
    destruct (mem s (values e)); simpl; split; congruence.
  - intros cls fs f e kwargs s Hf Ht Hget Hout.
    rewrite <- mem_in in Hout. apply not_true_is_false in Hout.
    assert (In (Violation [Name (fname f)] (VStr s) (IsMember e))
               (violations (attribute_value (validate L (ftyp f)) (fname f)
                                            (fdefault f) kwargs))) as Hv.
    { unfold attribute_value. rewrite Hget, Ht, enum_validate, Hout.
      simpl. auto. }
    destruct (attribute_violations L cls fs f kwargs _ Hf Hv) as [H1 H2].
    split; [exact H2 | exact H1].
Qed.

(** C5 at Issue.severity: "critical" is not a member of IssueSeverity;
    the construction fails with a violation located at severity. *)
Lemma enum_fields_witness :
  accepts pydantic_lax Issue (issue_args (VStr "critical")) = false
  /\ In (Violation [Name "severity"] (VStr "critical")
                   (IsMember IssueSeverity))
        (violations
           (construct pydantic_lax Issue (issue_args (VStr "critical")))).
Proof.
  refine (proj1 (proj2 (proj2 (proj2 (enum_fields_exact pydantic_lax))))
            "Issue" (attributes_of Issue)
            (required "severity" (TEnum IssueSeverity)) IssueSeverity
            (issue_args (VStr "critical")) "critical" _ eq_refl eq_refl _).
  - simpl. tauto.
  - simpl. intros [H | [H | [H | []]]]; discriminate H.
Defined.

(** C6, as the code has it: for every record type of the module and
    every input that passes validation, if the validated instance is
    JSON-safe (its floats are finite, its datetimes are naive or have a
    UTC offset of whole minutes, and what it stores under its Any-typed
    attributes is JSON-compatible data, without datetime objects), then
    serializing the instance and validating the serialized form again
    yields the same instance; the SkillLevel
    built from topic "recursion", level "advanced", confidence 0.85 and
    last_assessed "2024-01-01T00:00:00Z" is valid, serializes to
    exactly these arguments and is read back as the same instance. *)
Theorem records_round_trip (L : lax) :
  (forall t x v,
      In t registry ->
      validate L t x = Valid v ->
      json_safe t v = true ->
      validate L t (serialize v) = Valid v)
  /\ construct L SkillLevel (skill_level_args (VFloat f0_85))
     = Valid skill_level_stored
  /\ nearest 85 100 f0_85 = true
  /\ json_safe SkillLevel skill_level_stored = true
  /\ serialize skill_level_stored = VDict (skill_level_args (VFloat f0_85))
  /\ validate L SkillLevel (serialize skill_level_stored)
     = Valid skill_level_stored.
Proof.
  split; [| repeat split].
  intros t x v Ht Hv Hp.
  apply (roundtrip L t x v); try assumption.
  pose proof registry_well_formed as Hwf.
  rewrite forallb_forall in Hwf. apply Hwf, Ht.
Qed.

(** C6 at SearchResult: the instance stored for a relevance score
    given as the integer 1 is read back from its serialized form. *)
Lemma records_round_trip_witness :
  validate pydantic_lax SearchResult
    (serialize
       (VDict [("document_id", VStr "d1"); ("title", VStr "Recursion");
               ("content_snippet", VStr "a function that calls itself");
               ("relevance_score", VFloat f1_0);
               ("metadata",
                VDict (metadata_args
                         ++ [("language", VNone); ("framework", VNone)]))]))
  = Valid
      (VDict [("document_id", VStr "d1"); ("title", VStr "Recursion");
              ("content_snippet", VStr "a function that calls itself");
              ("relevance_score", VFloat f1_0);
              ("metadata",
               VDict (metadata_args
                        ++ [("language", VNone); ("framework", VNone)]))]).
Proof.
  refine (proj1 (records_round_trip pydantic_lax) SearchResult
            (VDict (search_result_args (VInt 1))) _ _ eq_refl eq_refl).
  simpl. tauto.
Defined.

(** C6 as stated fails: ApiResponse(success=True, data=d) with a
    datetime object d is valid, but its serialized form carries the
    ISO-8601 text of d, which is read back under [Any] as a string: the
    instance read back differs from the original. *)
Lemma any_datetime_not_round_trip :
  construct pydantic_lax ApiResponse response_args = Valid response_stored
  /\ validate pydantic_lax ApiResponse (serialize response_stored)
     = Valid response_reread
  /\ response_reread <> response_stored.
Proof.
  split; [reflexivity | split; [reflexivity | discriminate]].
Qed.

(** Likewise a SkillImprovement whose previous_level is infinite is
    valid, but JSON has no such number: it is written as null, which is
    not a float, so the serialized form is not read back at all. *)
Lemma infinite_float_not_round_trip :
  construct pydantic_lax SkillImprovement improvement_args
  = Valid (VDict improvement_args)
  /\ validate pydantic_lax SkillImprovement
       (serialize (VDict improvement_args))
     = Invalid [Violation [Name "previous_level"] VNone IsFloat].
Proof. split; reflexivity. Qed.

(** Likewise a SkillLevel assessed at a datetime whose offset has
    seconds (+00:19:32) is valid and stored as given, but ISO-8601 text
    writes the offset as +00:19: the instance read back is 32 seconds
    away from the original, whatever the conversions of the library. *)
Lemma offset_seconds_not_round_trip (L : lax) :
  construct L SkillLevel
    (put "last_assessed" (VDatetime amsterdam_noon)
         (skill_level_args (VFloat f0_85)))
  = Valid (skill_level_at amsterdam_noon)
  /\ json_safe SkillLevel (skill_level_at amsterdam_noon) = false
  /\ attr "last_assessed" (serialize (skill_level_at amsterdam_noon))
     = Some (VStr "1937-01-01T12:00:00+00:19")
  /\ validate L SkillLevel (serialize (skill_level_at amsterdam_noon))
     = Valid (skill_level_at amsterdam_reread)
  /\ skill_level_at amsterdam_reread <> skill_level_at amsterdam_noon.
Proof.
  repeat split. intros H.
  apply (f_equal (fun v => match attr "last_assessed" v with
                           | Some (VDatetime d) =>
                               Datetime.utcoffset (Datetime.attrs d)
                           | _ => None
                           end)) in H.
  discriminate H.
Qed.

(** C7: UserFeedback(rating=6, helpful=True, clarity_rating=3,
    accuracy_rating=4) fails with exactly one violation, located at
    [rating]; violations are collected over all attributes, so two
    offending attributes give two violations. *)
Theorem feedback_rating_six (L : lax) :
  construct L UserFeedback (feedback_args (VInt 6) (VInt 3) (VInt 4))
  = Invalid [Violation [Name "rating"] (VInt 6) (LessEqual (VInt 5))]
  /\ construct L UserFeedback (feedback_args (VInt 6) (VInt 0) (VInt 4))
     = Invalid [Violation [Name "rating"] (VInt 6) (LessEqual (VInt 5));
                Violation [Name "clarity_rating"] (VInt 0)
                          (GreaterEqual (VInt 1))].
Proof. split; reflexivity. Qed.

(** C8: a PaginatedResponse with total=0, data=[], has_next=False and
    has_prev=False is valid for every integer page and limit, and is
    stored as given; more generally every combination of data, total,
    page, limit, has_next and has_prev of the declared types is valid:
    no constraint ties these attributes together. *)
Theorem paginated_response_unconstrained (L : lax) :
  (forall page limit,
      construct L PaginatedResponse (page_args page limit)
      = Valid (VDict (page_args page limit)))
  /\ (forall data total page limit has_next has_prev,
        construct L PaginatedResponse
          [("data", VList data); ("total", VInt total); ("page", VInt page);
           ("limit", VInt limit); ("has_next", VBool has_next);
           ("has_prev", VBool has_prev)]
        = Valid (VDict
                   [("data", VList data); ("total", VInt total);
                    ("page", VInt page); ("limit", VInt limit);
                    ("has_next", VBool has_next);
                    ("has_prev", VBool has_prev)])).
Proof.
  split; [reflexivity |].
  intros data total page limit has_next has_prev.
  unfold construct, PaginatedResponse. rewrite validate_model.
  simpl. unfold attribute_value. simpl.
  rewrite (items_any data 0). reflexivity.
Qed.

(** C9: GenerationContext.relevance_threshold defaults to 0.7 when the
    argument is omitted, and it carries no bound: every float, below
    0.0 or above 1.0 included, is accepted and stored unchanged. *)
Theorem relevance_threshold_default_unbounded (L : lax) :
  In (defaulted "relevance_threshold" (TFloat unbounded) (VFloat f0_7))
     (attributes_of GenerationContext)
  /\ nearest 7 10 f0_7 = true
  /\ (forall kwargs v,
        get "relevance_threshold" kwargs = None ->
        construct L GenerationContext kwargs = Valid v ->
        attr "relevance_threshold" v = Some (VFloat f0_7))
  /\ accepts L GenerationContext generation_args = true
  /\ (forall kwargs x,
        accepts L GenerationContext kwargs = true ->
        accepts L GenerationContext
                (put "relevance_threshold" (VFloat x) kwargs) = true)
  /\ (forall kwargs x v,
        construct L GenerationContext
                  (put "relevance_threshold" (VFloat x) kwargs) = Valid v ->
        attr "relevance_threshold" v = Some (VFloat x))
  /\ map (fun x => accepts L GenerationContext
                     (put "relevance_threshold" (VFloat x) generation_args))
         [fm0_0001; f1_0001; f1_5; S754_infinity false; S754_nan]
     = [true; true; true; true; true].
Proof.
  split; [| split; [| split; [| split; [| split; [| split]]]]].
  - simpl. tauto.
  - reflexivity.
  - intros kwargs v Hget Hv.
    destruct (stored_argument L _ _
                (defaulted "relevance_threshold" (TFloat unbounded)
                           (VFloat f0_7))
                _ v Hv eq_refl ltac:(simpl; tauto)) as (y & Hy & Hx).
    simpl fname in Hx. rewrite Hget in Hx. injection Hx as <-. exact Hy.
  - reflexivity.
  - intros kwargs x Hacc.
    apply (accepts_put L _ _
             (defaulted "relevance_threshold" (TFloat unbounded)
                        (VFloat f0_7)));
      [reflexivity | simpl; tauto | exact Hacc].
  - intros kwargs x v Hv.
    destruct (stored_argument L _ _
                (defaulted "relevance_threshold" (TFloat unbounded)
                           (VFloat f0_7))
                _ v Hv eq_refl ltac:(simpl; tauto)) as (y & Hy & Hx).
    simpl fname in Hx. rewrite get_put_same in Hx.
    injection Hx as <-. exact Hy.
  - reflexivity.
Qed.

(** C9 at 1.5: a threshold above 1.0 set on valid arguments is
    accepted. *)
Lemma relevance_threshold_witness :
  accepts pydantic_lax GenerationContext
    (put "relevance_threshold" (VFloat f1_5) generation_args) = true.
Proof.
  exact (proj1 (proj2 (proj2 (proj2 (proj2
           (relevance_threshold_default_unbounded pydantic_lax)))))
           generation_args f1_5 eq_refl).
Defined.

(** C10: ConversationMessage.role and LearningResource.type are plain
    [str] attributes: every string is accepted and stored unchanged,
    not only 'user' / 'assistant' for role or 'article' / 'video' /
    'exercise' / 'project' for type. *)
Theorem role_and_type_free_text (L : lax) :
  declares ConversationMessage "role" TStr
  /\ declares LearningResource "type" TStr
  /\ (forall s, construct L ConversationMessage (message_args (VStr s))
                = Valid (VDict (message_args (VStr s)
                                  ++ [("metadata", VNone)])))
  /\ (forall s, accepts L LearningResource
                  (resource_args (VStr s) (VInt 30)) = true)
  /\ (forall kwargs s,
        accepts L ConversationMessage kwargs = true ->
        accepts L ConversationMessage (put "role" (VStr s) kwargs) = true)
  /\ (forall kwargs s,
        accepts L LearningResource kwargs = true ->
        accepts L LearningResource (put "type" (VStr s) kwargs) = true)
  /\ (forall kwargs s v,
        construct L ConversationMessage (put "role" (VStr s) kwargs)
        = Valid v ->
        attr "role" v = Some (VStr s))
  /\ (forall kwargs s v,
        construct L LearningResource (put "type" (VStr s) kwargs)
        = Valid v ->
        attr "type" v = Some (VStr s)).
Proof.
  split; [| split; [| split; [| split; [| split; [| split; [| split]]]]]].
  - unfold declares; simpl; tauto.
  - unfold declares; simpl; tauto.
  - reflexivity.
  - reflexivity.
  - intros kwargs s Hacc.
    apply (accepts_put L _ _ (required "role" TStr));
      [reflexivity | simpl; tauto | exact Hacc].
  - intros kwargs s Hacc.
    apply (accepts_put L _ _ (required "type" TStr));
      [reflexivity | simpl; tauto | exact Hacc].
  - intros kwargs s v Hv.
    destruct (stored_argument L _ _ (required "role" TStr)
                _ v Hv eq_refl ltac:(simpl; tauto)) as (y & Hy & Hx).
    simpl fname in Hx. rewrite get_put_same in Hx.
    injection Hx as <-. exact Hy.
  - intros kwargs s v Hv.
    destruct (stored_argument L _ _ (required "type" TStr)
                _ v Hv eq_refl ltac:(simpl; tauto)) as (y & Hy & Hx).
    simpl fname in Hx. rewrite get_put_same in Hx.
    injection Hx as <-. exact Hy.
Qed.

(** C10 at role "system": a role that is neither 'user' nor
    'assistant' set on valid arguments is accepted. *)
Lemma role_and_type_witness :
  accepts pydantic_lax ConversationMessage
    (put "role" (VStr "system") (message_args (VStr "user"))) = true.
Proof.
  exact (proj1 (proj2 (proj2 (proj2 (proj2
           (role_and_type_free_text pydantic_lax)))))
           (message_args (VStr "user")) "system" eq_refl).
Defined.

(* ================================================================= *)
(** ** Facts about every class of the module *)

Module ClassFacts.

(** A member of the registry is a class with distinct attribute names
    whose annotations and defaults are well formed. *)
Lemma registry_class (t : ftype) :
  In t registry ->
  exists cls fs,
    t = BaseModel cls fs
    /\ well_formed t = true
    /\ distinct (map fname fs) = true.
Proof.
  intros Ht.
  assert (well_formed t = true) as Hwf
    by (pose proof registry_well_formed as H;
        rewrite forallb_forall in H; apply H, Ht).
  assert (exists cls fs, t = BaseModel cls fs) as (cls & fs & ->).
  { simpl in Ht.
    repeat (destruct Ht as [<- | Ht]; [eexists; eexists; reflexivity |]).
    destruct Ht. }
  exists cls, fs. split; [reflexivity | split; [exact Hwf |]].
  apply well_formed_model in Hwf. apply Hwf.
Qed.

Section Classes.

Variable L : lax.

(** The violations of a call are those of its attributes, in
    declaration order. *)
Lemma violations_construct (cls : string) (fs : list field)
      (kwargs : list (string * value)) :
  violations (construct L (BaseModel cls fs) kwargs)
  = flat_map (attribute_violations_of L kwargs) fs.
Proof.
  unfold construct. rewrite validate_model, violations_rmap.
  induction fs as [| f fs IH]; [reflexivity |].
  simpl. rewrite violations_both, IH. reflexivity.
Qed.

Lemma violations_at_loc {A : Type} (i : loc_item) (r : result A) :
  violations (at_loc i r) = map (under i) (violations r).
Proof. destruct r; reflexivity. Qed.

(** The violations of an attribute that has an argument are those of
    the argument, located under the attribute name. *)
Lemma attribute_violations_given (kwargs : list (string * value))
      (f : field) (x : value) :
  get (fname f) kwargs = Some x ->
  attribute_violations_of L kwargs f
  = map (under (Name (fname f))) (violations (validate L (ftyp f) x)).
Proof.
  intros Hget. unfold attribute_violations_of, attribute_value.
  rewrite Hget, violations_rmap, violations_at_loc. reflexivity.
Qed.

Lemma attribute_violations_absent (kwargs : list (string * value))
      (f : field) :
  get (fname f) kwargs = None ->
  attribute_violations_of L kwargs f
  = if is_required f then [missing kwargs (fname f)] else [].
Proof.
  intros Hget. unfold attribute_violations_of, attribute_value, is_required.
  rewrite Hget. destruct (fdefault f); reflexivity.
Qed.

(** The violations of the items of a list, each under its index. *)
Lemma items_violations (v : value -> result value) (xs : list value) :
  forall i n x e,
    nth_error xs n = Some x ->
    In e (violations (v x)) ->
    In (under (Index (i + n)) e) (violations (items v i xs)).
Proof.
  induction xs as [| y xs IH]; intros i n x e Hn He;
    [destruct n; discriminate |].
  simpl. rewrite violations_both, violations_at_loc, in_app_iff.
  destruct n as [| n]; simpl in Hn.
  - injection Hn as ->. left. rewrite Nat.add_0_r. apply in_map, He.
  - right. replace (i + S n)%nat with (S i + n)%nat by lia.
    apply (IH (S i) n x e Hn He).
Qed.

(** The violations of the values of a dict, each under its key. *)
Lemma entries_violations (v : value -> result value)
      (kvs : list (string * value)) (k : string) (x : value)
      (e : violation) :
  In (k, x) kvs ->
  In e (violations (v x)) ->
  In (under (Name k) e) (violations (entries v kvs)).
Proof.
  induction kvs as [| [k' x'] kvs IH]; intros Hin He; [destruct Hin |].
  simpl. rewrite violations_both, violations_rmap, violations_at_loc,
    in_app_iff.
  destruct Hin as [[= -> ->] | Hin]; [left; apply in_map, He |].
  right. apply IH; assumption.
Qed.

(** The result of a call depends on the arguments the class reads
    only. *)
Lemma attribute_value_same (v : value -> result value) (name : string)
      (d : option value) (k1 k2 : list (string * value))
      (kv : string * value) :
  get name k1 = get name k2 ->
  attribute_value v name d k1 = Valid kv ->
  attribute_value v name d k2 = Valid kv.
Proof.
  intros Hget H. apply attribute_value_valid in H.
  apply attribute_value_valid. rewrite <- Hget. exact H.
Qed.

Lemma construct_same (cls : string) (fs : list field)
      (k1 k2 : list (string * value)) (v : value) :
  same_arguments (BaseModel cls fs) k1 k2 ->
  construct L (BaseModel cls fs) k1 = Valid v ->
  construct L (BaseModel cls fs) k2 = Valid v.
Proof.
  intros Hsame H. apply construct_valid in H.
  destruct H as (kvs & -> & Hkvs).
  apply construct_valid. exists kvs. split; [reflexivity |].
  unfold same_arguments in Hsame. simpl in Hsame.
  induction Hkvs as [| f kv fs' kvs' Hf _ IH]; constructor.
  - apply (attribute_value_same _ _ _ k1 k2); [| exact Hf].
    apply Hsame. left. reflexivity.
  - apply IH. intros g Hg. apply Hsame. right. exact Hg.
Qed.

Lemma reported_both {A B C : Type} (f : A -> B -> C)
      (r1 : result A) (r2 : result B) :
  reported r1 -> reported r2 -> reported (both f r1 r2).
Proof.
  unfold reported. destruct r1 as [a | es1], r2 as [b | es2]; simpl;
    intros H1 H2 H; try discriminate; auto.
  intros He. apply app_eq_nil in He. destruct He as [He _].
  apply (H1 eq_refl He).
Qed.

Lemma reported_rmap {A B : Type} (f : A -> B) (r : result A) :
  reported r -> reported (rmap f r).
Proof. unfold reported. destruct r; simpl; auto. Qed.

Lemma reported_at_loc {A : Type} (i : loc_item) (r : result A) :
  reported r -> reported (at_loc i r).
Proof.
  unfold reported. destruct r as [a | es]; simpl; auto.
  intros H Hf He. apply map_eq_nil in He. apply (H Hf He).
Qed.

Lemma reported_in_bounds {A : Type} (leb : A -> A -> bool)
      (inj : A -> value) (b : bounds A) (a : A) (x : value) :
  reported (in_bounds leb inj b a x).
Proof.
  unfold reported, in_bounds, fail.
  destruct (le b), (ge b);
    repeat match goal with
           | |- context [if ?c then _ else _] => destruct c
           end; simpl; congruence.
Qed.

Lemma reported_items (v : value -> result value) (xs : list value) :
  (forall x, reported (v x)) -> forall i, reported (items v i xs).
Proof.
  intros Hv. induction xs as [| x xs IH]; intros i; [discriminate |].
  simpl. apply reported_both; [apply reported_at_loc, Hv | apply IH].
Qed.

Lemma reported_entries (v : value -> result value)
      (kvs : list (string * value)) :
  (forall x, reported (v x)) -> reported (entries v kvs).
Proof.
  intros Hv. induction kvs as [| [k x] kvs IH]; [discriminate |].
  simpl. apply reported_both; [| exact IH].
  apply reported_rmap, reported_at_loc, Hv.
Qed.

Lemma reported_attribute (v : value -> result value) (name : string)
      (d : option value) (kwargs : list (string * value)) :
  (forall x, reported (v x)) -> reported (attribute_value v name d kwargs).
Proof.
  intros Hv. unfold attribute_value. destruct (get name kwargs).
  - apply reported_rmap, reported_at_loc, Hv.
  - destruct d; unfold reported; simpl; congruence.
Qed.

Lemma reported_validate : forall t x, reported (validate L t x).
Proof.
  induction t as [| b | b | | | | e | t IH | t IH | t IH | cls fs IH]
    using ftype_induction; intros x; simpl.
  - destruct (as_str L x); unfold reported; simpl; congruence.
  - destruct (as_int L x); [apply reported_in_bounds |].
    unfold reported; simpl; congruence.
  - destruct (as_float L x); [apply reported_in_bounds |].
    unfold reported; simpl; congruence.
  - destruct (as_bool L x); unfold reported; simpl; congruence.
  - destruct (as_datetime L x); unfold reported; simpl; congruence.
  - discriminate.
  - destruct x; try (unfold reported; simpl; congruence).
    destruct (mem s (values e)); unfold reported; simpl; congruence.
  - destruct x; try (unfold reported; simpl; congruence).
    apply reported_rmap, reported_items, IH.
  - destruct x; try (unfold reported; simpl; congruence).
    apply reported_rmap, reported_entries, IH.
  - destruct x; try apply IH. discriminate.
  - destruct x as [| | | | | | | kwargs];
      try (unfold reported; simpl; congruence).
    apply reported_rmap.
    induction IH as [| f fs' Hf _ IHfs]; [discriminate |].
    apply reported_both; [apply reported_attribute, Hf | exact IHfs].
Qed.

(** [get] after the keyword arguments have been written in the
    opposite order. *)
Lemma get_app (k : string) (l1 l2 : list (string * value)) :
  get k (l1 ++ l2)
  = match get k l1 with Some y => Some y | None => get k l2 end.
Proof.
  induction l1 as [| [k' x] l1 IH]; [reflexivity |].
  simpl. destruct (String.eqb k k'); [reflexivity | exact IH].
Qed.

Lemma get_absent (k : string) (kvs : list (string * value)) :
  mem k (map fst kvs) = false -> get k kvs = None.
Proof.
  induction kvs as [| [k' x] kvs IH]; [reflexivity |].
  simpl. intros H. apply orb_false_iff in H. destruct H as [H1 H2].
  rewrite H1. apply IH, H2.
Qed.

Lemma get_rev (k : string) (kvs : list (string * value)) :
  distinct (map fst kvs) = true -> get k (rev kvs) = get k kvs.
Proof.
  induction kvs as [| [k' x] kvs IH]; [reflexivity |].
  simpl. intros H. apply andb_true_iff in H. destruct H as [Hfresh Hd].
  apply negb_true_iff in Hfresh.
  rewrite get_app, (IH Hd). simpl.
  destruct (String.eqb_spec k k') as [-> | Hne].
  - rewrite (get_absent k' kvs Hfresh). reflexivity.
  - destruct (get k kvs); reflexivity.
Qed.

End Classes.

End ClassFacts.

(* ================================================================= *)
(** ** Facts about the enumerations and the remaining declarations *)

Module DeclarationFacts.

(** In a list of members with distinct values, a value belongs to one
    member. *)
Lemma value_names_member (l : list (string * string)) :
  distinct (map snd l) = true ->
  forall n1 n2 v, In (n1, v) l -> In (n2, v) l -> n1 = n2.
Proof.
  induction l as [| [n v0] l IH]; intros Hd n1 n2 v H1 H2; [destruct H1 |].
  simpl in Hd. apply andb_true_iff in Hd. destruct Hd as [Hfresh Hd].
  apply negb_true_iff in Hfresh.
  assert (forall m, In (m, v0) l -> False) as Hnot.
  { intros m Hm.
    assert (mem v0 (map snd l) = true) as Hmem
      by (apply mem_in; apply (in_map snd) in Hm; exact Hm).
    congruence. }
  destruct H1 as [E1 | H1], H2 as [E2 | H2].
  - congruence.
  - injection E1 as <- <-. exfalso. apply (Hnot n2 H2).
  - injection E2 as <- <-. exfalso. apply (Hnot n1 H1).
  - apply (IH Hd n1 n2 v H1 H2).
Qed.

(** In a list of members with distinct names, a name has one value. *)
Lemma name_has_value (l : list (string * string)) :
  distinct (map fst l) = true ->
  forall n v1 v2, In (n, v1) l -> In (n, v2) l -> v1 = v2.
Proof.
  induction l as [| [n0 v] l IH]; intros Hd n v1 v2 H1 H2; [destruct H1 |].
  simpl in Hd. apply andb_true_iff in Hd. destruct Hd as [Hfresh Hd].
  apply negb_true_iff in Hfresh.
  assert (forall w, In (n0, w) l -> False) as Hnot.
  { intros w Hw.
    assert (mem n0 (map fst l) = true) as Hmem
      by (apply mem_in; apply (in_map fst) in Hw; exact Hw).
    congruence. }
  destruct H1 as [E1 | H1], H2 as [E2 | H2].
  - congruence.
  - injection E1 as <- <-. exfalso. apply (Hnot v2 H2).
  - injection E2 as <- <-. exfalso. apply (Hnot v1 H1).
  - apply (IH Hd n v1 v2 H1 H2).
Qed.

(** A list of floats is a valid list of unbounded floats. *)
Lemma floats_valid (L : lax) (xs : list float) :
  forall i, items (validate L (TFloat unbounded)) i (map VFloat xs)
            = Valid (map VFloat xs).
Proof.
  induction xs as [| x xs IH]; intros i; [reflexivity |].
  simpl map. simpl items. rewrite IH. reflexivity.
Qed.

(** Every attribute of the module annotated [Optional[...]] has the
    default [None]. *)
Lemma optional_defaults :
  forallb (fun t => forallb (fun f => implb (is_optional f)
                                            (none_by_default f))
                            (attributes_of t)) registry = true.
Proof. reflexivity. Qed.

End DeclarationFacts.

Import ClassFacts.
Import DeclarationFacts.

(* ================================================================= *)
(** ** Further properties of the registry *)

(** X1: in every class of the module, an attribute declared with a
    default stores that default when the call gives no argument for
    it. *)
Theorem default_taken_when_absent (L : lax) (t : ftype) (f : field)
        (d : value) (kwargs : list (string * value)) (v : value) :
  In t registry ->
  In f (attributes_of t) ->
  fdefault f = Some d ->
  get (fname f) kwargs = None ->
  construct L t kwargs = Valid v ->
  attr (fname f) v = Some d.
Proof.
  intros Ht Hf Hd Hget Hv.
  destruct (registry_class t Ht) as (cls & fs & -> & _ & Hdist).
  destruct (stored_argument L cls fs f kwargs v Hv Hdist Hf)
    as (y & Hy & Hx).
  rewrite Hget, Hd in Hx. injection Hx as <-. exact Hy.
Qed.

(** X1 at ProgressMetrics: a call that gives the time spent only
    stores 0 questions asked. *)
Lemma default_taken_witness :
  attr "questions_asked"
       (VDict [("topics_covered", VList []); ("time_spent", VInt 30);
               ("concepts_learned", VInt 0); ("questions_asked", VInt 0);
               ("feedback_given", VInt 0); ("skill_improvements", VList [])])
  = Some (VInt 0).
Proof.
  refine (default_taken_when_absent pydantic_lax ProgressMetrics
            (defaulted "questions_asked" (TInt unbounded) (VInt 0))
            (VInt 0) (progress_args (VInt 30)) _ _ _ eq_refl eq_refl eq_refl).
  - simpl. tauto.
  - simpl. tauto.
Defined.

(** X2: in every class of the module, a call that gives no argument for
    an attribute declared without default is rejected, and the
    violations name that attribute as missing. *)
Theorem required_attribute_missing (L : lax) (t : ftype) (f : field)
        (kwargs : list (string * value)) :
  In t registry ->
  In f (attributes_of t) ->
  fdefault f = None ->
  get (fname f) kwargs = None ->
  accepts L t kwargs = false
  /\ In (missing kwargs (fname f)) (violations (construct L t kwargs)).
Proof.
  intros Ht Hf Hd Hget.
  destruct (registry_class t Ht) as (cls & fs & -> & _ & _).
  assert (In (missing kwargs (fname f))
             (violations (attribute_value (validate L (ftyp f)) (fname f)
                                          (fdefault f) kwargs))) as He.
  { unfold attribute_value. rewrite Hget, Hd. left. reflexivity. }
  destruct (attribute_violations L cls fs f kwargs _ Hf He) as [H1 H2].
  split; [exact H2 | exact H1].
Qed.

(** X2 at LoginCredentials: a call without password is rejected. *)
Lemma required_attribute_witness :
  accepts pydantic_lax LoginCredentials [("email", VStr "a@b.c")] = false
  /\ In (missing [("email", VStr "a@b.c")] "password")
        (violations
           (construct pydantic_lax LoginCredentials
                      [("email", VStr "a@b.c")])).
Proof.
  refine (required_attribute_missing pydantic_lax LoginCredentials
            (required "password" TStr) [("email", VStr "a@b.c")]
            _ _ eq_refl eq_refl).
  - simpl. tauto.
  - simpl. tauto.
Defined.

(** X3: a call without any argument reports exactly the required
    attributes of the class as missing, in declaration order; it is
    accepted exactly when every attribute has a default, which holds
    for five classes of the module, and it then returns the instance
    made of the defaults. *)
Theorem call_without_arguments (L : lax) :
  (forall cls fs,
      violations (construct L (BaseModel cls fs) [])
      = map (missing []) (required_names fs))
  /\ (forall cls fs,
        accepts L (BaseModel cls fs) []
        = forallb (fun f => negb (is_required f)) fs)
  /\ (forall cls fs,
        accepts L (BaseModel cls fs) [] = true ->
        construct L (BaseModel cls fs) [] = Valid (no_args (BaseModel cls fs)))
  /\ filter (fun t => accepts L t []) registry
     = [NotificationSettings; UserPreferences; LearningContext;
        SessionContext; SearchFilters].
Proof.
  split; [| split; [| split]].
  - intros cls fs. rewrite violations_construct. unfold required_names.
    induction fs as [| f fs IH]; [reflexivity |].
    simpl. rewrite IH, (attribute_violations_absent L [] f eq_refl).
    destruct (is_required f); reflexivity.
  - intros cls fs. rewrite accepts_attributes.
    induction fs as [| f fs IH]; [reflexivity |].
    simpl. rewrite IH, is_valid_attribute. simpl.
    unfold is_required. destruct (fdefault f); reflexivity.
  - intros cls fs Hacc. rewrite accepts_attributes in Hacc.
    unfold construct. rewrite validate_model. simpl.
    induction fs as [| f fs IH]; [reflexivity |].
    simpl in Hacc. apply andb_true_iff in Hacc. destruct Hacc as [Hf Hfs].
    specialize (IH Hfs). simpl in IH |- *.
    rewrite is_valid_attribute in Hf. simpl in Hf.
    unfold attribute_value. simpl.
    destruct (fdefault f) as [d |]; [| discriminate].
    destruct (attributes L [] fs) as [kvs | es]; [| discriminate].
    simpl in IH |- *. injection IH as ->. reflexivity.
  - reflexivity.
Qed.

(** X4: the violations of a constructor call are exactly the violations
    of its attributes, one after the other in declaration order: a
    failing attribute does not hide the violations of the others. *)
Theorem all_violations_reported (L : lax) (cls : string) (fs : list field)
        (kwargs : list (string * value)) :
  violations (construct L (BaseModel cls fs) kwargs)
  = flat_map (attribute_violations_of L kwargs) fs
  /\ (forall e,
        In e (violations (construct L (BaseModel cls fs) kwargs))
        <-> exists f, In f fs /\ In e (attribute_violations_of L kwargs f)).
Proof.
  split; [apply violations_construct |].
  intros e. rewrite violations_construct, in_flat_map. reflexivity.
Qed.

(** X5: a rejected input carries at least one violation, whatever the
    annotation: a construction is accepted exactly when it reports no
    violation. *)
Theorem rejection_reports_violation (L : lax) (t : ftype) (x : value) :
  is_valid (validate L t x) = true <-> violations (validate L t x) = [].
Proof.
  split.
  - destruct (validate L t x); [reflexivity | discriminate].
  - intros He. destruct (is_valid (validate L t x)) eqn:Hv; [reflexivity |].
    exfalso. apply (reported_validate L t x Hv He).
Qed.

(** X6: a violation found inside a nested value is reported at the path
    of that value: under the attribute name for a record, under the
    index for a list item, under the key for a dict value; an
    [Optional] annotation adds nothing to the path.  So a rating of 6
    in the feedback of a LearningInteraction is reported at
    feedback.rating, and a confidence of 1.5 in an assessed skill at
    assessed_skills.recursion.confidence. *)
Theorem nested_violation_paths (L : lax) :
  (forall cls fs f kwargs x e,
      In f fs ->
      get (fname f) kwargs = Some x ->
      In e (violations (validate L (ftyp f) x)) ->
      In (under (Name (fname f)) e)
         (violations (construct L (BaseModel cls fs) kwargs)))
  /\ (forall t xs n x e,
        nth_error xs n = Some x ->
        In e (violations (validate L t x)) ->
        In (under (Index n) e) (violations (validate L (TList t) (VList xs))))
  /\ (forall t kvs k x e,
        In (k, x) kvs ->
        In e (violations (validate L t x)) ->
        In (under (Name k) e) (violations (validate L (TDict t) (VDict kvs))))
  /\ (forall t x, x <> VNone -> validate L (TOptional t) x = validate L t x)
  /\ construct L LearningInteraction
       (put "feedback" (VDict (feedback_args (VInt 6) (VInt 3) (VInt 4)))
            (interaction_args (VFloat f0_85)))
     = Invalid [Violation [Name "feedback"; Name "rating"] (VInt 6)
                          (LessEqual (VInt 5))]
  /\ construct L SkillAssessment
       (put "assessed_skills"
            (VDict [("recursion", VDict (skill_level_args (VFloat f1_5)))])
            (skill_assessment_args (VFloat f0_85)))
     = Invalid [Violation [Name "assessed_skills"; Name "recursion";
                           Name "confidence"]
                          (VFloat f1_5) (LessEqual (VFloat f1_0))]
  /\ construct L LearningPath
       (put "difficulty_progression"
            (VList [VStr "beginner"; VStr "expert"]) path_args)
     = Invalid [Violation [Name "difficulty_progression"; Index 1]
                          (VStr "expert") (IsMember DifficultyLevel)].
Proof.
  split; [| split; [| split; [| split; [| split; [| split]]]]].
  - intros cls fs f kwargs x e Hf Hget He.
    rewrite violations_construct, in_flat_map. exists f. split; [exact Hf |].
    rewrite (attribute_violations_given L kwargs f x Hget).
    apply in_map, He.
  - intros t xs n x e Hn He. simpl. rewrite violations_rmap.
    apply (items_violations (validate L t) xs 0 n x e Hn He).
  - intros t kvs k x e Hin He. simpl. rewrite violations_rmap.
    apply (entries_violations (validate L t) kvs k x e Hin He).
  - intros t x Hx. destruct x; try reflexivity. contradiction.
  - reflexivity.
  - reflexivity.
  - reflexivity.
Qed.

(** X6 at LearningPath: an estimated time that is a list, in the second
    milestone, is reported at milestones.1.estimated_time when lists are
    not converted to integers. *)
Lemma nested_violation_witness :
  In (Violation [Name "milestones"; Index 1; Name "estimated_time"]
                (VList []) IsInt)
     (violations
        (construct pydantic_lax LearningPath
           (put "milestones"
                (VList [VDict (milestone_args (VInt 2));
                        VDict (milestone_args (VList []))])
                path_args))).
Proof.
  refine (proj1 (nested_violation_paths pydantic_lax)
            "LearningPath" (attributes_of LearningPath)
            (defaulted "milestones" (TList Milestone) (VList []))
            (put "milestones"
                 (VList [VDict (milestone_args (VInt 2));
                         VDict (milestone_args (VList []))])
                 path_args)
            (VList [VDict (milestone_args (VInt 2));
                    VDict (milestone_args (VList []))])
            (Violation [Index 1; Name "estimated_time"] (VList []) IsInt)
            _ eq_refl _).
  - simpl. tauto.
  - refine (proj1 (proj2 (nested_violation_paths pydantic_lax))
              Milestone
              [VDict (milestone_args (VInt 2));
               VDict (milestone_args (VList []))]
              1%nat (VDict (milestone_args (VList [])))
              (Violation [Name "estimated_time"] (VList []) IsInt)
              eq_refl _).
    simpl. tauto.
Defined.

(** X7: the result of a constructor call depends only on the arguments
    given to the attributes of the class: two calls that agree on them
    store the same instance; in particular an argument that names no
    attribute is ignored, and the order of the keyword arguments does
    not matter. *)
Theorem only_declared_arguments_read (L : lax) :
  (forall t k1 k2 v,
      In t registry ->
      same_arguments t k1 k2 ->
      construct L t k1 = Valid v -> construct L t k2 = Valid v)
  /\ (forall t name x kwargs v,
        In t registry ->
        ~ In name (map fname (attributes_of t)) ->
        construct L t kwargs = Valid v ->
        construct L t (put name x kwargs) = Valid v)
  /\ (forall t kwargs v,
        In t registry ->
        distinct (map fst kwargs) = true ->
        construct L t kwargs = Valid v ->
        construct L t (rev kwargs) = Valid v).
Proof.
  split; [| split].
  - intros t k1 k2 v Ht Hsame Hv.
    destruct (registry_class t Ht) as (cls & fs & -> & _ & _).
    apply (construct_same L cls fs k1 k2 v Hsame Hv).
  - intros t name x kwargs v Ht Hname Hv.
    destruct (registry_class t Ht) as (cls & fs & -> & _ & _).
    apply (construct_same L cls fs kwargs _ v); [| exact Hv].
    intros f Hf. symmetry. apply get_put_other.
    intros He. apply Hname. rewrite <- He. apply in_map. exact Hf.
  - intros t kwargs v Ht Hd Hv.
    destruct (registry_class t Ht) as (cls & fs & -> & _ & _).
    apply (construct_same L cls fs kwargs _ v); [| exact Hv].
    intros f Hf. symmetry. apply get_rev, Hd.
Qed.

(** X7 at UserFeedback: an argument named "mood" is ignored. *)
Lemma only_declared_arguments_witness :
  construct pydantic_lax UserFeedback
    (put "mood" (VStr "happy") (feedback_args (VInt 5) (VInt 4) (VInt 3)))
  = Valid (feedback_stored 5 4 3).
Proof.
  refine (proj1 (proj2 (only_declared_arguments_read pydantic_lax))
            UserFeedback "mood" (VStr "happy")
            (feedback_args (VInt 5) (VInt 4) (VInt 3))
            (feedback_stored 5 4 3) _ _ eq_refl).
  - simpl. tauto.
  - simpl. intros [H | [H | [H | [H | [H | []]]]]]; discriminate H.
Defined.

(** X8: the instance stored by an accepted call has exactly the
    attributes of its class, each once, in declaration order. *)
Theorem stored_instance_shape (L : lax) (t : ftype)
        (kwargs : list (string * value)) (v : value) :
  In t registry ->
  construct L t kwargs = Valid v ->
  has_shape t v.
Proof.
  intros Ht Hv.
  destruct (registry_class t Ht) as (cls & fs & -> & _ & _).
  apply construct_valid in Hv. destruct Hv as (kvs & -> & Hkvs).
  exists kvs. split; [reflexivity |]. simpl.
  symmetry. apply (Forall2_names _ _ _ _ _ (fun f kv H =>
    eq_sym (proj1 (proj1 (attribute_value_valid _ _ _ _ _) H))) Hkvs).
Qed.

(** X8 at UserFeedback: the instance stored for three ratings has the
    five attributes of the class. *)
Lemma stored_instance_witness : has_shape UserFeedback (feedback_stored 5 4 3).
Proof.
  refine (stored_instance_shape pydantic_lax UserFeedback
            (feedback_args (VInt 5) (VInt 4) (VInt 3)) _ _ eq_refl).
  simpl. tauto.
Defined.

(** X9: validation is idempotent: what a class stores for a valid input
    is itself a valid input of the class, and is stored unchanged. *)
Theorem validation_idempotent (L : lax) (t : ftype) (x v : value) :
  In t registry ->
  validate L t x = Valid v ->
  validate L t v = Valid v.
Proof.
  intros Ht Hv.
  destruct (registry_class t Ht) as (cls & fs & -> & Hwf & _).
  apply (validate_stored L _ Hwf).
  apply (validate_conforms L _ Hwf x v Hv).
Qed.

(** X9 at SkillLevel: the stored instance of the scenario is accepted as
    it is. *)
Lemma validation_idempotent_witness :
  validate pydantic_lax SkillLevel skill_level_stored
  = Valid skill_level_stored.
Proof.
  refine (validation_idempotent pydantic_lax SkillLevel
            (VDict (skill_level_args (VFloat f0_85))) skill_level_stored
            _ eq_refl).
  simpl. tauto.
Defined.

(** X10: every default declared in the module is a valid value of the
    annotation of its attribute, and is stored unchanged when it is
    given as argument. *)
Theorem defaults_are_valid (L : lax) (t : ftype) (f : field) (d : value) :
  In t registry ->
  In f (attributes_of t) ->
  fdefault f = Some d ->
  validate L (ftyp f) d = Valid d.
Proof.
  intros Ht Hf Hd.
  destruct (registry_class t Ht) as (cls & fs & -> & Hwf & _).
  apply well_formed_model in Hwf. destruct Hwf as [_ Hall].
  rewrite Forall_forall in Hall. destruct (Hall f Hf) as [Hc Hwf].
  rewrite Hd in Hc. apply (validate_stored L _ Hwf d Hc).
Qed.

(** X10 at User.preferences: the default preferences are valid
    preferences. *)
Lemma defaults_are_valid_witness :
  validate pydantic_lax UserPreferences (no_args UserPreferences)
  = Valid (no_args UserPreferences).
Proof.
  refine (defaults_are_valid pydantic_lax User
            (defaulted "preferences" UserPreferences (no_args UserPreferences))
            (no_args UserPreferences) _ _ eq_refl).
  - simpl. tauto.
  - simpl. tauto.
Defined.

(** X11: the two score attributes outside SkillLevel, SearchResult and
    SkillAssessment, namely PersonalizedResponse.confidence_score and
    WorkflowOptimization.difficulty_reduction, carry the same bounds: a
    float is accepted exactly when it lies within [0.0, 1.0], and a
    construction that succeeds stores a float within [0.0, 1.0].  At the
    edges, 0.0, -0.0 and 1.0 are accepted; -0.0001, 1.0001, both
    infinities and NaN are rejected. *)
Theorem response_scores_within_unit_interval (L : lax) :
  declares PersonalizedResponse "confidence_score" (TFloat unit_interval)
  /\ declares WorkflowOptimization "difficulty_reduction"
              (TFloat unit_interval)
  /\ (forall kwargs x,
        accepts L PersonalizedResponse kwargs = true ->
        accepts L PersonalizedResponse
                (put "confidence_score" (VFloat x) kwargs) = unit_range x)
  /\ (forall kwargs x,
        accepts L WorkflowOptimization kwargs = true ->
        accepts L WorkflowOptimization
                (put "difficulty_reduction" (VFloat x) kwargs) = unit_range x)
  /\ (forall kwargs v,
        construct L PersonalizedResponse kwargs = Valid v ->
        exists x, attr "confidence_score" v = Some (VFloat x)
                  /\ unit_range x = true)
  /\ (forall kwargs v,
        construct L WorkflowOptimization kwargs = Valid v ->
        exists x, attr "difficulty_reduction" v = Some (VFloat x)
                  /\ unit_range x = true)
  /\ map (fun x => accepts L PersonalizedResponse
                     (personalized_args (VFloat x)))
         [f0_0; fm0_0; f1_0; fm0_0001; f1_0001; f_inf; fm_inf; f_nan]
     = [true; true; true; false; false; false; false; false]
  /\ map (fun x => accepts L WorkflowOptimization (workflow_args (VFloat x)))
         [f0_0; fm0_0; f1_0; fm0_0001; f1_0001; f_inf; fm_inf; f_nan]
     = [true; true; true; false; false; false; false; false].
Proof.
  split; [| split; [| split; [| split; [| split; [| split; [| split]]]]]].
  - unfold declares. simpl. tauto.
  - unfold declares. simpl. tauto.
  - intros kwargs x Hacc. rewrite <- (unit_interval_valid L x).
    apply (accepts_put L _ _
             (required "confidence_score" (TFloat unit_interval)));
      [reflexivity | simpl; tauto | exact Hacc].
  - intros kwargs x Hacc. rewrite <- (unit_interval_valid L x).
    apply (accepts_put L _ _
             (required "difficulty_reduction" (TFloat unit_interval)));
      [reflexivity | simpl; tauto | exact Hacc].
  - intros kwargs v Hv.
    destruct (stored_attribute L _ _
                (required "confidence_score" (TFloat unit_interval))
                kwargs v Hv eq_refl ltac:(simpl; tauto)) as (y & Hy & Hc).
    apply unit_interval_conforms in Hc. destruct Hc as (x & -> & Hx). eauto.
  - intros kwargs v Hv.
    destruct (stored_attribute L _ _
                (required "difficulty_reduction" (TFloat unit_interval))
                kwargs v Hv eq_refl ltac:(simpl; tauto)) as (y & Hy & Hc).
    apply unit_interval_conforms in Hc. destruct Hc as (x & -> & Hx). eauto.
  - reflexivity.
  - reflexivity.
Qed.

(** X11 at WorkflowOptimization: a difficulty reduction of 1.5 set on
    valid arguments is rejected. *)
Lemma response_scores_witness :
  accepts pydantic_lax WorkflowOptimization
    (put "difficulty_reduction" (VFloat f1_5) (workflow_args (VFloat f0_85)))
  = false.
Proof.
  exact (proj1 (proj2 (proj2 (proj2
           (response_scores_within_unit_interval pydantic_lax))))
           (workflow_args (VFloat f0_85)) f1_5 eq_refl).
Defined.

(** X12: in every enumeration of the module the member names are
    distinct and the values are distinct, so a value designates one
    member and a name has one value; across enumerations values are
    shared: "detailed" is a value of ExplanationDepth and of
    ExplanationStyle. *)
Theorem enum_members_unambiguous :
  (forall e n1 n2 v,
      In e enums ->
      In (n1, v) (members e) -> In (n2, v) (members e) -> n1 = n2)
  /\ (forall e n v1 v2,
        In e enums ->
        In (n, v1) (members e) -> In (n, v2) (members e) -> v1 = v2)
  /\ In "detailed" (values ExplanationDepth)
  /\ In "detailed" (values ExplanationStyle).
Proof.
  split; [| split; [| split]].
  - intros e n1 n2 v He. apply value_names_member.
    simpl in He.
    repeat (destruct He as [<- | He]; [reflexivity |]). destruct He.
  - intros e n v1 v2 He. apply name_has_value.
    simpl in He.
    repeat (destruct He as [<- | He]; [reflexivity |]). destruct He.
  - simpl. tauto.
  - simpl. tauto.
Qed.

(** X13: no class of the module has an attribute annotated with
    ExplanationDepth, at any depth; each of the six other enumerations
    annotates an attribute of some class. *)
Theorem explanation_depth_unused :
  (forall t, In t registry -> mentions ExplanationDepth t = false)
  /\ (forall e, In e enums -> ename e <> ename ExplanationDepth ->
                exists t, In t registry /\ mentions e t = true).
Proof.
  split.
  - intros t Ht.
    assert (forallb (fun t => negb (mentions ExplanationDepth t)) registry
            = true) as H by reflexivity.
    rewrite forallb_forall in H. apply negb_true_iff, H, Ht.
  - intros e He Hne.
    assert (existsb (mentions e) registry = true) as H.
    { simpl in He.
      repeat (destruct He as [<- | He];
              [first [reflexivity | exfalso; apply Hne; reflexivity] |]).
      destruct He. }
    apply existsb_exists in H. exact H.
Qed.

(** X13 at IssueSeverity: it annotates an attribute of some class. *)
Lemma explanation_depth_witness :
  exists t, In t registry /\ mentions IssueSeverity t = true.
Proof.
  refine (proj2 explanation_depth_unused IssueSeverity _ _).
  - simpl. tauto.
  - discriminate.
Defined.

(** X14: KnowledgeDocument.embedding_vector accepts a list of floats of
    any length, the empty one included, and stores it unchanged: no
    dimension is enforced. *)
Theorem embedding_vector_any_length (L : lax)
        (kwargs : list (string * value)) (xs : list float) :
  accepts L KnowledgeDocument kwargs = true ->
  accepts L KnowledgeDocument
          (put "embedding_vector" (VList (map VFloat xs)) kwargs) = true
  /\ (forall v,
        construct L KnowledgeDocument
                  (put "embedding_vector" (VList (map VFloat xs)) kwargs)
        = Valid v ->
        attr "embedding_vector" v = Some (VList (map VFloat xs))).
Proof.
  intros Hacc.
  assert (validate L (TList (TFloat unbounded)) (VList (map VFloat xs))
          = Valid (VList (map VFloat xs))) as Hxs
    by (change (rmap VList
                  (items (validate L (TFloat unbounded)) 0 (map VFloat xs))
                = Valid (VList (map VFloat xs)));
        rewrite (floats_valid L xs 0); reflexivity).
  split.
  - refine (eq_trans
              (accepts_put L "KnowledgeDocument"
                 (attributes_of KnowledgeDocument)
                 (defaulted "embedding_vector" (TList (TFloat unbounded))
                            (VList []))
                 kwargs (VList (map VFloat xs)) eq_refl
                 ltac:(simpl; tauto) Hacc) _).
    cbn [ftyp defaulted]. rewrite Hxs. reflexivity.
  - intros v Hv.
    destruct (stored_argument L _ _
                (defaulted "embedding_vector" (TList (TFloat unbounded))
                           (VList []))
                _ v Hv eq_refl ltac:(simpl; tauto)) as (y & Hy & Hx).
    cbn [fname ftyp defaulted] in Hx. rewrite get_put_same, Hxs in Hx.
    injection Hx as <-. exact Hy.
Qed.

(** X14 at a vector of three components. *)
Lemma embedding_vector_witness :
  accepts pydantic_lax KnowledgeDocument
    (put "embedding_vector" (VList (map VFloat [f0_7; fm0_0001; f1_5]))
         document_args) = true.
Proof.
  exact (proj1 (embedding_vector_any_length pydantic_lax document_args
                  [f0_7; fm0_0001; f1_5] eq_refl)).
Defined.

(** X15: every attribute of the module annotated Optional has the
    default None, accepts an explicit None and stores it as None. *)
Theorem optional_attributes_accept_none (L : lax) (t : ftype) (f : field)
        (kwargs : list (string * value)) :
  In t registry ->
  In f (attributes_of t) ->
  is_optional f = true ->
  none_by_default f = true
  /\ (accepts L t kwargs = true ->
      accepts L t (put (fname f) VNone kwargs) = true)
  /\ (forall v,
        construct L t (put (fname f) VNone kwargs) = Valid v ->
        attr (fname f) v = Some VNone).
Proof.
  intros Ht Hf Hopt.
  assert (validate L (ftyp f) VNone = Valid VNone) as Hnone
    by (unfold is_optional in Hopt; destruct (ftyp f); try discriminate;
        reflexivity).
  split; [| split].
  - pose proof optional_defaults as H. rewrite forallb_forall in H.
    specialize (H t Ht). rewrite forallb_forall in H.
    specialize (H f Hf). rewrite Hopt in H. exact H.
  - intros Hacc.
    destruct (registry_class t Ht) as (cls & fs & -> & _ & Hdist).
    rewrite (accepts_put L cls fs f kwargs VNone Hdist Hf Hacc), Hnone.
    reflexivity.
  - intros v Hv.
    destruct (registry_class t Ht) as (cls & fs & -> & _ & Hdist).
    destruct (stored_argument L cls fs f _ v Hv Hdist Hf) as (y & Hy & Hx).
    rewrite get_put_same, Hnone in Hx. injection Hx as <-. exact Hy.
Qed.

(** X15 at SearchFilters.language. *)
Lemma optional_attributes_witness :
  accepts pydantic_lax SearchFilters (put "language" VNone []) = true.
Proof.
  refine (proj1 (proj2 (optional_attributes_accept_none pydantic_lax
            SearchFilters (defaulted "language" (TOptional TStr) VNone) []
            _ _ eq_refl)) eq_refl).
  - simpl. tauto.
  - simpl. tauto.
Defined.

(** X16: a User built from the five required attributes alone gets the
    default preferences (detailed explanations, no language, no goal,
    the four notification flags on) and an empty learning context (no
    skill level, no history, no focus area, no estimated expertise). *)
Theorem new_user_defaults (L : lax) (id email username : string)
        (created updated : Datetime.t) :
  construct L User (user_args id email username created updated)
  = Valid (VDict (user_args id email username created updated
                    ++ [("preferences", no_args UserPreferences);
                        ("learning_context", no_args LearningContext)]))
  /\ no_args UserPreferences
     = VDict [("explanation_style", VStr "detailed");
              ("preferred_languages", VList []);
              ("learning_goals", VList []);
              ("notification_settings",
               VDict [("email_notifications", VBool true);
                      ("push_notifications", VBool true);
                      ("learning_reminders", VBool true);
                      ("progress_updates", VBool true)])]
  /\ no_args LearningContext
     = VDict [("skill_levels", VDict []); ("learning_history", VList []);
              ("current_focus_areas", VList []);
              ("estimated_expertise", VNone)].
Proof. repeat split. Qed.

(** X18: in every class of the module an argument is validated on its
    own: setting one argument of an accepted call gives an accepted call
    exactly when the new argument is valid for the annotation of its
    attribute, whatever the other arguments are.  No class has a
    constraint across attributes, and a nested record is accepted
    exactly when its own class accepts it. *)
Theorem argument_validated_alone (L : lax) (t : ftype) (f : field)
        (kwargs : list (string * value)) (x : value) :
  In t registry ->
  In f (attributes_of t) ->
  accepts L t kwargs = true ->
  accepts L t (put (fname f) x kwargs) = is_valid (validate L (ftyp f) x).
Proof.
  intros Ht Hf Hacc.
  destruct (registry_class t Ht) as (cls & fs & -> & _ & Hdist).
  apply (accepts_put L cls fs f kwargs x Hdist Hf Hacc).
Qed.

(** X18 at AuthResponse.user: a user record without arguments is
    rejected inside an AuthResponse as it is on its own. *)
Lemma argument_validated_witness :
  accepts pydantic_lax AuthResponse (put "user" (VDict []) auth_args)
  = accepts pydantic_lax User [].
Proof.
  refine (argument_validated_alone pydantic_lax AuthResponse
            (required "user" User) auth_args (VDict []) _ _ eq_refl).
  - simpl. tauto.
  - simpl. tauto.
Defined.
